(** * Customer profiles as vectors: a model of [database.py]

    The script keeps three query parameters and one database connection in
    module-level variables, rebuilds a ten-row [customer] table, stores one
    float32 vector per row and asks the database for the nearest rows.

    The development follows the file top to bottom:
    - [PyStr]: the [str] methods the setters use, on ASCII text;
    - [Float32]: what [array.array('f', ...)] does to an integer;
    - [Engine]: the statements the script sends, as functions on the table;
    - what the charts draw on pyplot's current axes;
    - the script's functions in a state-and-exception monad over [world];
    - the properties. *)

From Stdlib Require Import ZArith List String Ascii Bool Lia.
From Stdlib Require Import DecimalString Sorted Reals.
Import ListNotations.
Local Open Scope string_scope.
Local Open Scope Z_scope.

(** ** Python strings (ASCII)

    A string is its sequence of characters, one [ascii] each, so the text
    modelled is the text [s.isascii()] holds of.  There [lower], [upper]
    and [title] below are Python's; on other characters Python follows the
    Unicode case tables, which are not modelled, and the statements that
    say what a setter stores or accepts are made for ASCII arguments. *)

Module PyStr.

(** [s.isascii()] *)
Fixpoint isascii (s : string) : bool :=
  match s with
  | EmptyString => true
  | String c s' => (Nat.ltb (nat_of_ascii c) 128 && isascii s')%bool
  end.

Definition is_upper (c : ascii) : bool :=
  let n := nat_of_ascii c in (Nat.leb 65 n && Nat.leb n 90)%bool.

Definition is_lower (c : ascii) : bool :=
  let n := nat_of_ascii c in (Nat.leb 97 n && Nat.leb n 122)%bool.

Definition to_lower (c : ascii) : ascii :=
  if is_upper c then ascii_of_nat (nat_of_ascii c + 32) else c.

Definition to_upper (c : ascii) : ascii :=
  if is_lower c then ascii_of_nat (nat_of_ascii c - 32) else c.

(** [s.lower()] *)
Fixpoint lower (s : string) : string :=
  match s with
  | EmptyString => EmptyString
  | String c s' => String (to_lower c) (lower s')
  end.

(** [s.upper()] *)
Fixpoint upper (s : string) : string :=
  match s with
  | EmptyString => EmptyString
  | String c s' => String (to_upper c) (upper s')
  end.

(** [s.title()]: a cased character is upper-cased when the character
    before it is not cased, lower-cased otherwise. *)
Fixpoint title_from (previous_is_cased : bool) (s : string) : string :=
  match s with
  | EmptyString => EmptyString
  | String c s' =>
      if (is_lower c || is_upper c)%bool
      then String (if previous_is_cased then to_lower c else to_upper c)
                  (title_from true s')
      else String c (title_from false s')
  end.

Definition title (s : string) : string := title_from false s.

(** [s.split(sep)] for a one-character separator: never empty, the
    empty string splits into one empty field. *)
Fixpoint split (sep : ascii) (s : string) : list string :=
  match s with
  | EmptyString => [EmptyString]
  | String c s' =>
      if Ascii.eqb c sep then EmptyString :: split sep s'
      else match split sep s' with
           | field :: fields => String c field :: fields
           | [] => [String c EmptyString]
           end
  end.

(** [x in xs] for a list of strings *)
Definition mem (x : string) (xs : list string) : bool :=
  existsb (String.eqb x) xs.

(** [str(n)] for an integer *)
Definition str_of_Z (n : Z) : string := NilZero.string_of_int (Z.to_int n).

Definition str_of_nat (n : nat) : string := str_of_Z (Z.of_nat n).

End PyStr.

(** ** Single precision

    Every number the script packs into a vector is an integer column value,
    and the single-precision value of an integer is again an integer, so a
    float32 is kept as the integer it equals. *)

Module Float32.

Definition t := Z.

(** Round [n] to [p] significant bits, ties to even. *)
Definition round_bits (p : Z) (n : Z) : Z :=
  let a := Z.abs n in
  let e := Z.log2 a + 1 - p in
  if e <=? 0 then n
  else
    let q := Z.shiftr a e in
    let r := Z.land a (Z.ones e) in
    let half := Z.shiftl 1 (e - 1) in
    let q' := if ((half <? r) || ((r =? half) && Z.odd q))%bool
              then q + 1 else q in
    Z.sgn n * Z.shiftl q' e.

(** The largest finite single-precision number. *)
Definition max : Z := (2 ^ 24 - 1) * 2 ^ 104.

(** An [int] stored in an ['f'] array goes through a C double (53 bits)
    and is then narrowed to a C float (24 bits).  This is the stored
    number as long as it stays within [max] in magnitude, which it does
    for every integer of up to 38 digits; beyond that the array stores an
    infinity or the conversion raises [OverflowError], and neither is
    modelled. *)
Definition of_int (n : Z) : t := round_bits 24 (round_bits 53 n).

End Float32.

(** ** Exceptions and the monad of the script *)

Inductive exn : Type :=
| Exception (message : string)   (* raise Exception("...") *)
| DatabaseError                  (* oracledb.DatabaseError *)
| NameError                      (* a module variable read before init() *)
| AttributeError                 (* a method called on None *)
| TypeError
| IndexError.

Inductive outcome (A : Type) : Type :=
| Ok (a : A)
| Raise (e : exn).
Arguments Ok {A} a.
Arguments Raise {A} e.


(** ** The database engine

    The script talks to one schema holding at most one table, [customer].
    Each statement the script sends is given here as a function on that
    schema: what the statement returns and what it leaves behind, or the
    [DatabaseError] it raises.  Column constraints ([not null], the length
    of [name], the range of [int]) are not modelled: the seed rows satisfy
    them and the script inserts nothing else. *)

Module Engine.

Definition vector := list Float32.t.

Record customer : Type := mkCustomer {
  id : Z;                       (* generated as identity *)
  name : string;
  age : Z;
  income : Z;
  profile : option vector       (* None: null, or no such column *)
}.

Record table : Type := mkTable {
  identity : Z;                 (* the next generated id *)
  profile_width : option nat;   (* vector(n, float32), when the column exists *)
  rows : list customer
}.

(** [None]: the schema has no [customer] table. *)
Definition schema := option table.

Definition reply (A : Type) := outcome (A * schema).

(** A value in a fetched row, as the driver hands it to Python. *)
Inductive value : Type :=
| VInt (n : Z)
| VStr (s : string)
| VVec (v : vector)
| VNull.

Definition clear_profile (r : customer) : customer :=
  mkCustomer (id r) (name r) (age r) (income r) None.

Definition set_profile (v : vector) (r : customer) : customer :=
  mkCustomer (id r) (name r) (age r) (income r) (Some v).

(** [drop table if exists customer] *)
Definition drop_table_if_exists (s : schema) : reply unit := Ok (tt, None).

(** [create table customer (id ..., name ..., age ..., income ...)] *)
Definition create_table (s : schema) : reply unit :=
  match s with
  | Some _ => Raise DatabaseError
  | None => Ok (tt, Some (mkTable 1 None []))
  end.

Definition insert_row (t : table) (bind : string * Z * Z) : table :=
  let '(n, a, i) := bind in
  mkTable (identity t + 1) (profile_width t)
          (rows t ++ [mkCustomer (identity t) n a i None]).

(** [insert into customer (name, age, income) values (:1, :2, :3)],
    once per bind. *)
Definition insert (binds : list (string * Z * Z)) (s : schema) : reply unit :=
  match s with
  | None => Raise DatabaseError
  | Some t => Ok (tt, Some (fold_left insert_row binds t))
  end.

(** [alter table customer drop column profile] *)
Definition drop_profile_column (s : schema) : reply unit :=
  match s with
  | None => Raise DatabaseError
  | Some t =>
      match profile_width t with
      | None => Raise DatabaseError
      | Some _ =>
          Ok (tt, Some (mkTable (identity t) None (map clear_profile (rows t))))
      end
  end.

Definition max_dimensions : Z := 65535.

(** [alter table customer add profile vector(n, float32)]: the new column
    is null in every row. *)
Definition add_profile_column (n : nat) (s : schema) : reply unit :=
  match s with
  | None => Raise DatabaseError
  | Some t =>
      match profile_width t with
      | Some _ => Raise DatabaseError
      | None =>
          if ((1 <=? Z.of_nat n) && (Z.of_nat n <=? max_dimensions))%bool
          then Ok (tt, Some (mkTable (identity t) (Some n)
                                     (map clear_profile (rows t))))
          else Raise DatabaseError
      end
  end.

Definition vector_value (p : option vector) : value :=
  match p with Some v => VVec v | None => VNull end.

(** The column a select-list item names, for the items the script's
    setter lets through: plain lower-case names, of which the engine knows
    those below and rejects the others as invalid identifiers.  Select
    lists are not parsed beyond that: an item in another case, with blanks
    or an expression can be legal SQL, and the statements about a select
    that fails are made for allow-listed items only. *)
Definition column (t : table) (item : string) : option (customer -> value) :=
  if String.eqb item "id" then Some (fun r => VInt (id r))
  else if String.eqb item "name" then Some (fun r => VStr (name r))
  else if String.eqb item "age" then Some (fun r => VInt (age r))
  else if String.eqb item "income" then Some (fun r => VInt (income r))
  else if String.eqb item "profile" then
    match profile_width t with
    | Some _ => Some (fun r => vector_value (profile r))
    | None => None
    end
  else None.

Fixpoint columns (t : table) (items : list string)
  : option (list (customer -> value)) :=
  match items with
  | [] => Some []
  | item :: items' =>
      match column t item, columns t items' with
      | Some f, Some fs => Some (f :: fs)
      | _, _ => None
      end
  end.

(** [select id, <column_list> from customer]: per row, the id and the
    values of the listed columns. *)
Definition select_id_and (column_list : string) (s : schema)
  : reply (list (Z * list value)) :=
  match s with
  | None => Raise DatabaseError
  | Some t =>
      match columns t (PyStr.split "," column_list) with
      | None => Raise DatabaseError
      | Some fs =>
          Ok (map (fun r => (id r, map (fun f => f r) fs)) (rows t), s)
      end
  end.

Definition update_row (bind : vector * Z) (r : customer) : customer :=
  if id r =? snd bind then set_profile (fst bind) r else r.

(** [update customer set profile = :1 where id = :2], once per bind.  A
    vector of the wrong length is refused. *)
Definition update_profile (binds : list (vector * Z)) (s : schema)
  : reply unit :=
  match s with
  | None => Raise DatabaseError
  | Some t =>
      match profile_width t with
      | None => Raise DatabaseError
      | Some n =>
          if forallb (fun b => Nat.eqb (List.length (fst b)) n) binds
          then Ok (tt, Some (mkTable (identity t) (Some n)
                     (fold_left (fun rs b => map (update_row b) rs)
                                binds (rows t))))
          else Raise DatabaseError
      end
  end.

(** [select name, profile from customer] *)
Definition select_name_profile (s : schema)
  : reply (list (string * option vector)) :=
  match s with
  | None => Raise DatabaseError
  | Some t =>
      match profile_width t with
      | None => Raise DatabaseError
      | Some _ => Ok (map (fun r => (name r, profile r)) (rows t), s)
      end
  end.

(** [select profile from customer where name = :1] *)
Definition select_profile_by_name (n : string) (s : schema)
  : reply (list (option vector)) :=
  match s with
  | None => Raise DatabaseError
  | Some t =>
      match profile_width t with
      | None => Raise DatabaseError
      | Some _ =>
          Ok (map profile (filter (fun r => String.eqb (name r) n) (rows t)), s)
      end
  end.

(** *** Distances *)

Definition squared_distance (a b : vector) : Z :=
  fold_right (fun xy acc => (fst xy - snd xy) * (fst xy - snd xy) + acc)
             0 (combine a b).

Definition manhattan_distance (a b : vector) : Z :=
  fold_right (fun xy acc => Z.abs (fst xy - snd xy) + acc) 0 (combine a b).

Definition dot_product (a b : vector) : Z :=
  fold_right (fun xy acc => fst xy * snd xy + acc) 0 (combine a b).

(** The Euclidean distance itself is a real number. *)
Definition euclidean_distance (a b : vector) : R :=
  sqrt (IZR (squared_distance a b)).

(** [ordering q a b]: a row with vector [a] may precede a row with vector
    [b] when rows are ordered by distance to [q]. *)
Definition ordering := vector -> vector -> vector -> bool.

Definition by_rank (rank : vector -> vector -> Z) : ordering :=
  fun q a b => rank a q <=? rank b q.

(** Insertion sort; rows at the same distance keep their table order
    (the engine promises no order among them). *)
Fixpoint insert_sorted {A} (le : A -> A -> bool) (x : A) (l : list A) : list A :=
  match l with
  | [] => [x]
  | y :: l' => if le x y then x :: l else y :: insert_sorted le x l'
  end.

Definition sort {A} (le : A -> A -> bool) (l : list A) : list A :=
  fold_right (insert_sorted le) [] l.

(** A null distance sorts last; against a null [q] every distance is null. *)
Definition nulls_last (o : ordering) (q : option vector)
           (a b : option vector) : bool :=
  match q with
  | None => true
  | Some q' =>
      match a, b with
      | Some x, Some y => o q' x y
      | Some _, None => true
      | None, Some _ => false
      | None, None => true
      end
  end.

End Engine.

(** ** The plotting library

    [matplotlib.pyplot] keeps one current figure for the whole process.
    Neither chart function opens a figure of its own or clears the current
    one: [sns.lineplot] draws on the current axes and returns them,
    [ax.text] adds to them, and the function returns the module [plt]
    itself.  What a chart shows is therefore everything drawn since the
    process started.

    The data frame is kept as the Python dict it is built from.  Of what one
    chart call draws, the arguments of [sns.lineplot] and of each [ax.text]
    are kept, and whether the call leaves a legend. *)

Inductive cell : Type :=
| CStr (s : string)
| CNum (x : Float32.t).

Definition dict := list (string * list cell).

(** [{..., k: v}]: a repeated key keeps its place and takes the new value. *)
Fixpoint dict_set (k : string) (v : list cell) (d : dict) : dict :=
  match d with
  | [] => [(k, v)]
  | (k', v') :: d' =>
      if String.eqb k k' then (k, v) :: d' else (k', v') :: dict_set k v d'
  end.

Fixpoint dict_get (k : string) (d : dict) : list cell :=
  match d with
  | [] => []
  | (k', v) :: d' => if String.eqb k k' then v else dict_get k d'
  end.

Definition str_of_cell (c : cell) : string :=
  match c with
  | CStr s => s
  | CNum x => PyStr.str_of_Z x
  end.

Record text_label : Type := mkText {
  text_x : cell;
  text_y : cell;
  text_s : string;
  color : string;
  fontsize : Z;
  fontweight : string
}.

(** What one chart call draws on the current axes. *)
Record drawing : Type := mkDrawing {
  plot_data : dict;
  plot_x : string;
  plot_y : string;
  plot_hue : string;
  texts : list text_label;
  legend : bool
}.

(** The module object [matplotlib.pyplot], which both charts return: a
    name for the state below, not a copy of it. *)
Inductive module : Type := plt.

(** [df.iterrows()]: per row, the cells under the three keys the loop reads. *)
Definition iterrows (data : dict) (kx ky kname : string)
  : list (cell * cell * cell) :=
  combine (combine (dict_get kx data) (dict_get ky data)) (dict_get kname data).

(** ** The world of the script

    The three module variables of the parameters, the module variable
    [connection] (unbound until [init()] runs), and what lies outside the
    script: the schema, the sessions opened so far, the statements sent
    with the session that carried each, what was printed, and what has
    been drawn on pyplot's current axes, one entry per chart call. *)

Definition handle := nat.

Record world : Type := mkWorld {
  columns_list : string;
  customer_name : string;
  distance_metric : string;
  connection : option (option handle);  (* None: unbound; Some None: None *)
  database : Engine.schema;
  sessions : nat;                       (* handles 0 .. sessions-1 are open *)
  journal : list (handle * string);
  stdout : list string;
  pyplot : list drawing
}.

Definition with_columns_list (v : string) (w : world) : world :=
  mkWorld v (customer_name w) (distance_metric w) (connection w)
          (database w) (sessions w) (journal w) (stdout w) (pyplot w).

Definition with_customer_name (v : string) (w : world) : world :=
  mkWorld (columns_list w) v (distance_metric w) (connection w)
          (database w) (sessions w) (journal w) (stdout w) (pyplot w).

Definition with_distance_metric (v : string) (w : world) : world :=
  mkWorld (columns_list w) (customer_name w) v (connection w)
          (database w) (sessions w) (journal w) (stdout w) (pyplot w).

Definition with_connection (v : option handle) (w : world) : world :=
  mkWorld (columns_list w) (customer_name w) (distance_metric w) (Some v)
          (database w) (sessions w) (journal w) (stdout w) (pyplot w).

Definition with_database (v : Engine.schema) (w : world) : world :=
  mkWorld (columns_list w) (customer_name w) (distance_metric w) (connection w)
          v (sessions w) (journal w) (stdout w) (pyplot w).

Definition with_sessions (v : nat) (w : world) : world :=
  mkWorld (columns_list w) (customer_name w) (distance_metric w) (connection w)
          (database w) v (journal w) (stdout w) (pyplot w).

Definition with_journal (v : list (handle * string)) (w : world) : world :=
  mkWorld (columns_list w) (customer_name w) (distance_metric w) (connection w)
          (database w) (sessions w) v (stdout w) (pyplot w).

Definition with_stdout (v : list string) (w : world) : world :=
  mkWorld (columns_list w) (customer_name w) (distance_metric w) (connection w)
          (database w) (sessions w) (journal w) v (pyplot w).

Definition with_pyplot (v : list drawing) (w : world) : world :=
  mkWorld (columns_list w) (customer_name w) (distance_metric w) (connection w)
          (database w) (sessions w) (journal w) (stdout w) v.

(** A computation runs in a world and either returns or raises; what it
    did to the world stays done in both cases. *)
Definition M (A : Type) : Type := world -> outcome A * world.

Definition ret {A} (a : A) : M A := fun w => (Ok a, w).

Definition raise {A} (e : exn) : M A := fun w => (Raise e, w).

Definition bind {A B} (m : M A) (k : A -> M B) : M B :=
  fun w =>
    match m w with
    | (Ok a, w') => k a w'
    | (Raise e, w') => (Raise e, w')
    end.

Notation "x <- m ;; k" := (bind m (fun x => k))
  (at level 61, m at next level, right associativity).
Notation "m ;; k" := (bind m (fun _ => k))
  (at level 61, right associativity).

Definition read {A} (f : world -> A) : M A := fun w => (Ok (f w), w).

Definition write (f : world -> world) : M unit := fun w => (Ok tt, f w).

(** [try: m except <class>: ...]: [handler e] is the except-body when the
    clause catches [e]. *)
Definition try_except {A} (m : M A) (handler : exn -> option (M A)) : M A :=
  fun w =>
    match m w with
    | (Raise e, w') =>
        match handler e with
        | Some k => k w'
        | None => (Raise e, w')
        end
    | done => done
    end.

(** [except oracledb.DatabaseError] *)
Definition except_DatabaseError {A} (body : exn -> M A) (e : exn) : option (M A) :=
  match e with
  | DatabaseError => Some (body e)
  | _ => None
  end.

(** [except Exception]: every exception of the model is one. *)
Definition except_Exception {A} (body : exn -> M A) (e : exn) : option (M A) :=
  Some (body e).

Fixpoint for_each {A} (l : list A) (body : A -> M unit) : M unit :=
  match l with
  | [] => ret tt
  | x :: l' => body x ;; for_each l' body
  end.

Fixpoint map_m {A B} (f : A -> M B) (l : list A) : M (list B) :=
  match l with
  | [] => ret []
  | x :: l' => y <- f x ;; ys <- map_m f l' ;; ret (y :: ys)
  end.

Definition print (line : string) : M unit :=
  write (fun w => with_stdout (stdout w ++ [line]) w).

(** The plotting calls of one chart ([sns.lineplot], the [ax.text] loop,
    [plt.legend().remove()]) add to what the current axes already carry. *)
Definition draw (d : drawing) : M unit :=
  write (fun w => with_pyplot (pyplot w ++ [d]) w).

(** [connection.cursor()], [connection] being the module variable. *)
Definition connection_cursor : M handle :=
  fun w =>
    match connection w with
    | None => (Raise NameError, w)
    | Some None => (Raise AttributeError, w)
    | Some (Some h) => (Ok h, w)
    end.

(** [cursor.execute(sql, binds)] and [cursor.executemany(sql, binds)]: the
    statement reaches the engine over the cursor's session. *)
Definition cursor_execute {A} (cursor : handle) (sql : string)
           (statement : Engine.schema -> Engine.reply A) : M A :=
  fun w =>
    let w' := with_journal (journal w ++ [(cursor, sql)]) w in
    match statement (database w) with
    | Ok (a, s) => (Ok a, with_database s w')
    | Raise e => (Raise e, w')
    end.

(** [connection.commit()] *)
Definition connection_commit : M unit :=
  h <- connection_cursor ;;
  write (fun w => with_journal (journal w ++ [(h, "commit")]) w).

(** [array.array('f', columns)] *)
Fixpoint array_f (columns : list Engine.value) : outcome Engine.vector :=
  match columns with
  | [] => Ok []
  | Engine.VInt n :: columns' =>
      match array_f columns' with
      | Ok v => Ok (Float32.of_int n :: v)
      | Raise e => Raise e
      end
  | _ :: _ => Raise TypeError
  end.

Definition lift {A} (o : outcome A) : M A := fun w => (o, w).

(** [xs[i]] *)
Definition index {A} (xs : list A) (i : nat) : outcome A :=
  match nth_error xs i with
  | Some x => Ok x
  | None => Raise IndexError
  end.

(** [profile[i]] on a fetched vector, [None] when the column is null. *)
Definition coordinate (p : option Engine.vector) (i : nat) : outcome Float32.t :=
  match p with
  | None => Raise TypeError
  | Some v => index v i
  end.

(** ** Sample surroundings

    Concrete environments, listeners and worlds on which the statements
    below are exercised. *)

Definition dotenv (key : string) : option string :=
  if String.eqb key "DB_URL" then Some "localhost:1521/freepdb1"
  else if String.eqb key "DB_USER" then Some "demo"
  else if String.eqb key "DB_PASS" then Some "demo"
  else None.

(** A listener that opens a session for whoever asks. *)
Definition listener_up (username password dsn : option string) : option exn :=
  None.

(** A listener that is not there. *)
Definition listener_down (username password dsn : option string) : option exn :=
  Some DatabaseError.

(** An engine that knows no metric beyond those of [metric_ordering]. *)
Definition no_other_metric (metric : string) : option Engine.ordering := None.

(** The module just imported, in front of an empty schema. *)
Definition fresh : world := mkWorld "" "" "" None None 0 [] [] [].

(** The same once [init()] has opened session 0. *)
Definition connected : world :=
  mkWorld "" "" "" (Some (Some 0%nat)) None 1 [] [] [].

(** ** The script *)

Section Script.

(** Three things are outside both the script and the engine model: the
    environment once [load_dotenv()] has run, the exception
    [oracledb.connect] raises for given credentials ([None] when the
    session opens), and how the engine orders rows for a metric name
    other than the four of [metric_ordering] ([None] when it rejects the
    name). *)
Variable getenv : string -> option string.
Variable oracledb_connect :
  option string -> option string -> option string -> option exn.
Variable other_metric : string -> option Engine.ordering.

(** The third argument of [vector_distance], a keyword of the statement. *)
Definition metric_ordering (metric : string) : option Engine.ordering :=
  let m := PyStr.upper metric in
  if String.eqb m "EUCLIDEAN" then Some (Engine.by_rank Engine.squared_distance)
  else if String.eqb m "EUCLIDEAN_SQUARED"
  then Some (Engine.by_rank Engine.squared_distance)
  else if String.eqb m "MANHATTAN"
  then Some (Engine.by_rank Engine.manhattan_distance)
  else if String.eqb m "DOT"
  then Some (Engine.by_rank (fun a q => - Engine.dot_product a q))
  else other_metric m.

(** [select name, profile from customer
     order by vector_distance(profile, :1, <metric>)
     fetch first :2 rows only] *)
Definition select_nearest (metric : string) (q : option Engine.vector) (k : Z)
           (s : Engine.schema)
  : Engine.reply (list (string * option Engine.vector)) :=
  match s with
  | None => Raise DatabaseError
  | Some t =>
      match Engine.profile_width t, metric_ordering metric with
      | Some _, Some o =>
          let ordered :=
            Engine.sort (fun r1 r2 => Engine.nulls_last o q (Engine.profile r1)
                                                        (Engine.profile r2))
                        (Engine.rows t) in
          Ok (firstn (Z.to_nat k)
                     (map (fun r => (Engine.name r, Engine.profile r)) ordered),
              s)
      | _, _ => Raise DatabaseError
      end
  end.

(** [oracledb.connect(user=..., password=..., dsn=...)] *)
Definition connect (username password dsn : option string) : M handle :=
  match oracledb_connect username password dsn with
  | Some e => raise e
  | None => fun w => (Ok (sessions w), with_sessions (S (sessions w)) w)
  end.

Definition get_connection : M (option handle) :=
  let dsn := getenv "DB_URL" in
  let username := getenv "DB_USER" in
  let password := getenv "DB_PASS" in
  try_except
    (connection_ <- connect username password dsn ;;
     ret (Some connection_))
    (except_Exception (fun e =>
       print "Connection failed!" ;;
       ret None)).

Definition data_to_insert : list (string * Z * Z) :=
  [ ("John",    28, 6500);
    ("Jessica", 22, 7000);
    ("David",   31, 3900);
    ("Matthew", 38, 5200);
    ("Brandon", 35, 4700);
    ("Joshua",  25, 2600);
    ("Amanda",  33, 6500);
    ("Lauren",  39, 5500);
    ("James",   26, 3200);
    ("Olivia",  44, 8200) ].

Definition insert_data : M unit :=
  cursor <- connection_cursor ;;
  let sql := "INSERT INTO customer (name, age, income) VALUES (:1, :2, :3)" in
  cursor_execute cursor sql (Engine.insert data_to_insert) ;;
  connection_commit.

Definition create_schema : M unit :=
  cursor <- connection_cursor ;;
  let drop_table := "drop table if exists customer" in
  let create_table := "create table customer (
                            id            int generated as identity primary key,
                            name          varchar2(30) not null,
                            age           int not null,
                            income        int not null)" in
  let sql := [ (drop_table, Engine.drop_table_if_exists);
               (create_table, Engine.create_table) ] in
  for_each sql (fun s =>
    try_except (cursor_execute cursor (fst s) (snd s))
               (except_DatabaseError (fun e => raise e))) ;;
  insert_data.

Definition vectorize_data (column_list : string) : M unit :=
  let remove_vector_column := "alter table customer drop column profile" in
  let width := List.length (PyStr.split "," column_list) in
  let add_vector_column :=
    "alter table customer add profile vector(" ++ PyStr.str_of_nat width
      ++ ", float32)" in
  cursor <- connection_cursor ;;
  try_except
    (cursor_execute cursor remove_vector_column Engine.drop_profile_column ;;
     cursor_execute cursor add_vector_column (Engine.add_profile_column width))
    (except_DatabaseError (fun e =>
     cursor_execute cursor add_vector_column (Engine.add_profile_column width))) ;;
  cursor <- connection_cursor ;;
  let sql_query := "select id, " ++ column_list ++ " from customer" in
  query_resultset <- cursor_execute cursor sql_query
                       (Engine.select_id_and column_list) ;;
  binds <- map_m (fun row : Z * list Engine.value =>
                    let id := fst row in
                    let columns := snd row in
                    profile_embedding <- lift (array_f columns) ;;
                    ret (profile_embedding, id))
                 query_resultset ;;
  let sql_update := "update customer set profile = :1 where id = :2" in
  cursor_execute cursor sql_update (Engine.update_profile binds) ;;
  connection_commit.

Definition get_customer_profiles : M (list (string * option Engine.vector)) :=
  cursor <- connection_cursor ;;
  let sql := "select name, profile from customer" in
  cursor_execute cursor sql Engine.select_name_profile.

Definition get_similiar_customer_profiles
           (column_list name : string) (k : Z) (distance : string)
  : M (list (string * option Engine.vector)) :=
  cursor <- connection_cursor ;;
  let sql := "select profile from customer where name = :1" in
  fetched <- cursor_execute cursor sql (Engine.select_profile_by_name name) ;;
  let embedding_profile := hd_error fetched in
  let sql := "select name, profile from customer order by vector_distance(profile, :1, "
               ++ distance ++ ") fetch first :2 rows only" in
  match embedding_profile with
  | None => raise TypeError
  | Some embedding => cursor_execute cursor sql (select_nearest distance embedding k)
  end.

Definition column_names : list string :=
  ["age"; "income"; "is_single"; "no_children"; "no_cars"].

Definition set_column_list (columns : string) : M unit :=
  write (with_columns_list (PyStr.lower columns)) ;;
  columns_list_ <- read columns_list ;;
  let col_list := PyStr.split "," columns_list_ in
  if negb (Nat.eqb (List.length col_list) 2)
  then raise (Exception "Specify 1 or 2 columns")
  else
    for_each col_list (fun item =>
      if negb (PyStr.mem item column_names)
      then raise (Exception "Column list should contain only age, inome, is_single, no_children or no_cars")
      else ret tt).

Definition customer_names : list string :=
  ["Jessica"; "David"; "Matthew"; "Brandon"; "Joshua"; "Amanda"; "Lauren";
   "James"; "Olivia"].

Definition set_customer (name : string) : M unit :=
  write (with_customer_name (PyStr.title name)) ;;
  customer_name_ <- read customer_name ;;
  if negb (PyStr.mem (PyStr.title customer_name_) customer_names)
  then raise (Exception "Customer name must be one of Jessica, David, Matthew, Brandon, Joshua, Amanda, Lauren, James, Olivia")
  else ret tt.

Definition distance_names : list string :=
  ["COSINE"; "EUCLIDEAN"; "EUCLIDEAN_SQUARED"; "HAMMER"; "MANHATTAN";
   "JACCARD"; "DOT"].

Definition set_distance_metric (distance : string) : M unit :=
  write (with_distance_metric (PyStr.upper distance)) ;;
  distance_metric_ <- read distance_metric ;;
  if negb (PyStr.mem (PyStr.upper distance_metric_) distance_names)
  then raise (Exception "Distance must be one of CONSINE, EUCLIDEAN, EUCLIDEAN_SQUARE, MANHATTAN, JACCARD, DOT")
  else ret tt.

Definition customers_chart (columns distance : string) : M module :=
  set_column_list columns ;;
  set_distance_metric distance ;;
  create_schema ;;
  columns_list_ <- read columns_list ;;
  vectorize_data columns_list_ ;;
  all_profiles <- get_customer_profiles ;;
  columns_list_ <- read columns_list ;;
  let cols := PyStr.split "," columns_list_ in
  names <- map_m (fun item : string * option Engine.vector =>
                    x <- lift (coordinate (snd item) 0) ;;
                    y <- lift (coordinate (snd item) 1) ;;
                    ret (CStr (fst item ++ "[" ++ PyStr.str_of_Z x ++ ","
                                 ++ PyStr.str_of_Z y ++ "]")))
                 all_profiles ;;
  cols0 <- lift (index cols 0) ;;
  xs <- map_m (fun item : string * option Engine.vector =>
                 x <- lift (coordinate (snd item) 0) ;; ret (CNum x))
              all_profiles ;;
  cols1 <- lift (index cols 1) ;;
  ys <- map_m (fun item : string * option Engine.vector =>
                 y <- lift (coordinate (snd item) 1) ;; ret (CNum y))
              all_profiles ;;
  let data := dict_set cols1 ys (dict_set cols0 xs (dict_set "Name" names [])) in
  let labels :=
    map (fun row : cell * cell * cell =>
           let '(x, y, name) := row in
           mkText x y (str_of_cell name) "black" 7 "normal")
        (iterrows data cols0 cols1 "Name") in
  draw (mkDrawing data cols0 cols1 "Name" labels false) ;;
  ret plt.

(** The first lines of [similarity_chart], up to the rows the similarity
    query returns.  [connection_] is the function's own variable: the
    assignment makes the name local, and nothing reads it. *)
Definition similarity_chart_rows (columns cust_name distance : string)
  : M (list (string * option Engine.vector)) :=
  set_column_list columns ;;
  set_distance_metric distance ;;
  set_customer cust_name ;;
  connection_ <- get_connection ;;
  create_schema ;;
  columns_list_ <- read columns_list ;;
  vectorize_data columns_list_ ;;
  columns_list_ <- read columns_list ;;
  customer_name_ <- read customer_name ;;
  distance_metric_ <- read distance_metric ;;
  get_similiar_customer_profiles columns_list_ customer_name_ 3 distance_metric_.

Definition similarity_chart (columns cust_name distance : string) : M module :=
  nearest <- similarity_chart_rows columns cust_name distance ;;
  let similiar_profiles := map fst nearest in
  all_profiles <- get_customer_profiles ;;
  columns_list_ <- read columns_list ;;
  let cols := PyStr.split "," columns_list_ in
  let names := map (fun item : string * option Engine.vector => CStr (fst item))
                   all_profiles in
  cols0 <- lift (index cols 0) ;;
  xs <- map_m (fun item : string * option Engine.vector =>
                 x <- lift (coordinate (snd item) 0) ;; ret (CNum x))
              all_profiles ;;
  cols1 <- lift (index cols 1) ;;
  ys <- map_m (fun item : string * option Engine.vector =>
                 y <- lift (coordinate (snd item) 1) ;; ret (CNum y))
              all_profiles ;;
  let data := dict_set cols1 ys (dict_set cols0 xs (dict_set "Name" names [])) in
  customer_name_ <- read customer_name ;;
  let labels :=
    map (fun row : cell * cell * cell =>
           let '(x, y, name) := row in
           let highlighted := PyStr.mem (str_of_cell name) similiar_profiles in
           mkText x y (str_of_cell name)
                  (if String.eqb (str_of_cell name) customer_name_
                   then "red" else "black")
                  (if highlighted then 10 else 7)
                  (if highlighted then "bold" else "normal"))
        (iterrows data cols0 cols1 "Name") in
  draw (mkDrawing data cols0 cols1 "Name" labels false) ;;
  ret plt.

Definition init : M unit :=
  connection_ <- get_connection ;;
  write (with_connection connection_).


(** ** Vocabulary of the statements *)

(** What [set_column_list] checks of a lower-cased selection. *)
Definition valid_selection (selection : string) : bool :=
  let col_list := PyStr.split "," selection in
  (Nat.eqb (List.length col_list) 2
   && forallb (fun item => PyStr.mem item column_names) col_list)%bool.

(** The six metric names of the error message of [set_distance_metric]. *)
Definition documented_metrics : list string :=
  ["COSINE"; "EUCLIDEAN"; "EUCLIDEAN_SQUARED"; "MANHATTAN"; "JACCARD"; "DOT"].

(** The table right after [create table] and the seed insert. *)
Definition seed_table : Engine.table :=
  fold_left Engine.insert_row data_to_insert (Engine.mkTable 1 None []).

(** A connected world in front of the freshly seeded table, which has no
    profile column yet. *)
Definition seeded : world :=
  mkWorld "" "" "" (Some (Some 0%nat)) (Some seed_table) 1 [] [] [].

(** The columns of the allow-list that the table has. *)
Definition table_columns : list string := ["age"; "income"].

(** All three setters of [similarity_chart] let their argument through. *)
Definition setters_accept (columns cust_name distance : string) : bool :=
  (valid_selection (PyStr.lower columns)
   && PyStr.mem (PyStr.upper distance) distance_names
   && PyStr.mem (PyStr.title cust_name) customer_names)%bool.

(** Jessica's [age, income], packed as the script packs a row. *)
Definition jessica : Engine.vector := map Float32.of_int [22; 7000].

(** A row carries a vector of [n] numbers. *)
Definition has_embedding (n : nat) (r : Engine.customer) : Prop :=
  exists v, Engine.profile r = Some v /\ List.length v = n.

(** The two halves of [vectorize_data], under the names of its comments:
    "add/remove vector column" and "vectorize rows". *)
Definition add_remove_vector_column (column_list : string) : M unit :=
  let remove_vector_column := "alter table customer drop column profile" in
  let width := List.length (PyStr.split "," column_list) in
  let add_vector_column :=
    "alter table customer add profile vector(" ++ PyStr.str_of_nat width
      ++ ", float32)" in
  cursor <- connection_cursor ;;
  try_except
    (cursor_execute cursor remove_vector_column Engine.drop_profile_column ;;
     cursor_execute cursor add_vector_column (Engine.add_profile_column width))
    (except_DatabaseError (fun e =>
     cursor_execute cursor add_vector_column (Engine.add_profile_column width))).

Definition vectorize_rows (column_list : string) : M unit :=
  cursor <- connection_cursor ;;
  let sql_query := "select id, " ++ column_list ++ " from customer" in
  query_resultset <- cursor_execute cursor sql_query
                       (Engine.select_id_and column_list) ;;
  binds <- map_m (fun row : Z * list Engine.value =>
                    let id := fst row in
                    let columns := snd row in
                    profile_embedding <- lift (array_f columns) ;;
                    ret (profile_embedding, id))
                 query_resultset ;;
  let sql_update := "update customer set profile = :1 where id = :2" in
  cursor_execute cursor sql_update (Engine.update_profile binds) ;;
  connection_commit.

(** The binds [vectorize_data] builds from the fetched rows. *)
Fixpoint binds_of (fetched : list (Z * list Engine.value))
  : outcome (list (Engine.vector * Z)) :=
  match fetched with
  | [] => Ok []
  | row :: fetched' =>
      match array_f (snd row) with
      | Raise e => Raise e
      | Ok profile_embedding =>
          match binds_of fetched' with
          | Raise e => Raise e
          | Ok binds => Ok ((profile_embedding, fst row) :: binds)
          end
      end
  end.

(** The table once the profile column has been dropped (if there) and
    added again with the width of [column_list]. *)
Definition resized (column_list : string) (t : Engine.table) : Engine.table :=
  Engine.mkTable (Engine.identity t)
                 (Some (List.length (PyStr.split "," column_list)))
                 (map Engine.clear_profile (Engine.rows t)).

(** What the second half of [vectorize_data] makes of a resized table. *)
Definition embedded (column_list : string) (t : Engine.table)
  : outcome Engine.table :=
  match Engine.select_id_and column_list (Some t) with
  | Raise e => Raise e
  | Ok (fetched, _) =>
      match binds_of fetched with
      | Raise e => Raise e
      | Ok binds =>
          match Engine.update_profile binds (Some t) with
          | Ok (_, Some t') => Ok t'
          | Ok (_, None) => Raise DatabaseError
          | Raise e => Raise e
          end
      end
  end.

(** The statements [sent] all travelled over the session [c] names. *)
Definition sent_over (c : option (option handle))
           (sent : list (handle * string)) : Prop :=
  Forall (fun e => c = Some (Some (fst e))) sent.

(** From [w] to [w'] the module variable [connection] kept the value [c]
    and every statement journalled in between went over it. *)
Definition calm_step (c : option (option handle)) (w w' : world) : Prop :=
  connection w' = c
  /\ exists sent, journal w' = (journal w ++ sent)%list /\ sent_over c sent.

(** A computation that leaves [connection] alone and talks to the
    database over it only. *)
Definition calm {A} (c : option (option handle)) (m : M A) : Prop :=
  forall w, connection w = c -> calm_step c w (snd (m w)).

(** A calm computation that opens no session either. *)
Definition quiet {A} (c : option (option handle)) (m : M A) : Prop :=
  forall w, connection w = c ->
            calm_step c w (snd (m w)) /\ sessions (snd (m w)) = sessions w.

(** The listener lets the configured credentials in. *)
Definition accepted : bool :=
  match oracledb_connect (getenv "DB_USER") (getenv "DB_PASS") (getenv "DB_URL")
  with
  | None => true
  | Some _ => false
  end.

(** [sep.join(fields)] *)
Fixpoint join (sep : ascii) (fields : list string) : string :=
  match fields with
  | [] => EmptyString
  | [field] => field
  | field :: fields' => field ++ String sep (join sep fields')
  end.

(** What reading the module variable [connection] and calling a method on
    it raises, if anything. *)
Definition connection_error (c : option (option handle)) : option exn :=
  match c with
  | None => Some NameError
  | Some None => Some AttributeError
  | Some (Some _) => None
  end.

(** From [w] to [w'] nothing but the three stored parameters may have
    changed: same connection, schema, sessions, journal, output and
    drawings. *)
Definition untouched (w w' : world) : Prop :=
  connection w' = connection w
  /\ database w' = database w
  /\ sessions w' = sessions w
  /\ journal w' = journal w
  /\ stdout w' = stdout w
  /\ pyplot w' = pyplot w.

(** The number a row holds in column [item], for [item] among
    [table_columns]. *)
Definition column_number (item : string) (r : Engine.customer) : Z :=
  if String.eqb item "age" then Engine.age r else Engine.income r.

(** The names a select list may use once the profile column is there. *)
Definition all_columns : list string :=
  ["id"; "name"; "age"; "income"; "profile"].

(** The width [vectorize_data] asks for is one the engine accepts. *)
Definition width_ok (column_list : string) : Prop :=
  Z.of_nat (List.length (PyStr.split "," column_list)) <= Engine.max_dimensions.

(** The statement text of the first query of
    [get_similiar_customer_profiles]. *)
Definition select_profile_sql : string :=
  "select profile from customer where name = :1".

(** The first row of the table that carries [name], the one [fetchone]
    returns. *)
Definition subject_row (name : string) (t : Engine.table)
  : option Engine.customer :=
  hd_error (filter (fun r => String.eqb (Engine.name r) name) (Engine.rows t)).

(** The selection can be charted: both names are columns of the table. *)
Definition chartable (selection : string) : bool :=
  (valid_selection selection
   && forallb (fun item => PyStr.mem item table_columns)
              (PyStr.split "," selection))%bool.

(** The label [customers_chart] writes for a row: its name and the two
    selected numbers. *)
Definition overview_label (c0 c1 : string) (r : Engine.customer) : string :=
  Engine.name r ++ "[" ++ PyStr.str_of_Z (column_number c0 r) ++ ","
    ++ PyStr.str_of_Z (column_number c1 r) ++ "]".

(** The seed table once [vectorize_data] has packed the two columns. *)
Definition charted_table (c0 c1 : string) : Engine.table :=
  Engine.mkTable 11 (Some 2%nat)
    (map (fun r => Engine.set_profile [column_number c0 r; column_number c1 r] r)
         (Engine.rows seed_table)).

(** The metric names whose ordering [metric_ordering] itself gives. *)
Definition modelled_metrics : list string :=
  ["EUCLIDEAN"; "EUCLIDEAN_SQUARED"; "MANHATTAN"; "DOT"].

Definition is_red (l : text_label) : bool := String.eqb (color l) "red".

Definition is_bold (l : text_label) : bool := String.eqb (fontweight l) "bold".

(** The world [similarity_chart] is in once its three setters have stored
    [s], [n] and [m] and [get_connection] has run ([opened]: a session was
    opened). *)
Definition after_setters (s n m : string) (opened : bool) (w : world) : world :=
  let w3 := with_customer_name n (with_distance_metric m (with_columns_list s w)) in
  if opened then with_sessions (S (sessions w3)) w3
  else with_stdout (stdout w3 ++ ["Connection failed!"]) w3.

(** The seed table with an empty profile column of width 2: what a chart
    call leaves when its select fails. *)
Definition unfilled_table : Engine.table :=
  Engine.mkTable 11 (Some 2%nat) (Engine.rows seed_table).

(** Run from [w], the computation leaves the module variable [connection]
    as it is, opens no session, and sends what it sends over the session
    that variable names. *)
Definition keeps_connection {A} (m : M A) (w : world) : Prop :=
  connection (snd (m w)) = connection w
  /\ sessions (snd (m w)) = sessions w
  /\ exists sent,
      journal (snd (m w)) = (journal w ++ sent)%list
      /\ forall h sql, In (h, sql) sent -> connection w = Some (Some h).

(** An integer of at most 38 decimal digits, the precision of Oracle's
    [number]; all of them are well within the single-precision range. *)
Definition number_38 (n : Z) : Prop := Z.abs n < 10 ^ 38.

(** Every age and income of the table has at most 38 digits. *)
Definition numbers_38 (t : Engine.table) : Prop :=
  Forall (fun r => number_38 (Engine.age r) /\ number_38 (Engine.income r))
         (Engine.rows t).

(** The labels the chart shows: those of every drawing on the axes. *)
Definition chart_labels (w : world) : list text_label :=
  flat_map texts (pyplot w).

(** What [customers_chart] draws of the seed table for the columns [c0]
    and [c1]: one point and one label per row. *)
Definition overview (c0 c1 : string) : drawing :=
  let rows := Engine.rows seed_table in
  let names := map (fun r => CStr (overview_label c0 c1 r)) rows in
  let xs := map (fun r => CNum (column_number c0 r)) rows in
  let ys := map (fun r => CNum (column_number c1 r)) rows in
  mkDrawing (dict_set c1 ys (dict_set c0 xs (dict_set "Name" names [])))
            c0 c1 "Name"
            (map (fun r => mkText (CNum (column_number c0 r))
                                  (CNum (column_number c1 r))
                                  (overview_label c0 c1 r) "black" 7 "normal")
                 rows)
            false.

(** ** Strings *)

Lemma to_upper_idempotent (c : ascii) :
  PyStr.to_upper (PyStr.to_upper c) = PyStr.to_upper c.
Proof. destruct c as [[] [] [] [] [] [] [] []]; reflexivity. Qed.

Lemma upper_idempotent (s : string) : PyStr.upper (PyStr.upper s) = PyStr.upper s.
Proof.
  induction s as [|c s IH]; simpl; [reflexivity|].
  now rewrite to_upper_idempotent, IH.
Qed.

Lemma title_char_stable (b : bool) (c : ascii) :
  (PyStr.is_lower c || PyStr.is_upper c)%bool = true ->
  let c' := if b then PyStr.to_lower c else PyStr.to_upper c in
  (PyStr.is_lower c' || PyStr.is_upper c')%bool = true
  /\ (if b then PyStr.to_lower c' else PyStr.to_upper c') = c'.
Proof.
  destruct b; destruct c as [[] [] [] [] [] [] [] []];
    intro H; try discriminate H; split; reflexivity.
Qed.

Lemma title_from_idempotent (s : string) :
  forall b, PyStr.title_from b (PyStr.title_from b s) = PyStr.title_from b s.
Proof.
  induction s as [|c s IH]; intro b; simpl; [reflexivity|].
  destruct (PyStr.is_lower c || PyStr.is_upper c)%bool eqn:E; simpl.
  - destruct (title_char_stable b c E) as [E1 E2].
    rewrite E1, E2, IH. reflexivity.
  - rewrite E, IH. reflexivity.
Qed.

Lemma title_idempotent (s : string) : PyStr.title (PyStr.title s) = PyStr.title s.
Proof. apply title_from_idempotent. Qed.

Lemma mem_In (x : string) (xs : list string) : PyStr.mem x xs = true <-> In x xs.
Proof.
  unfold PyStr.mem. rewrite existsb_exists. split.
  - intros [y [Hy E]]. apply String.eqb_eq in E. now subst.
  - intro H. exists x. split; [assumption | apply String.eqb_refl].
Qed.

(** ** The setters *)

Lemma for_each_check {A} (p : A -> bool) (e : exn) (l : list A) (w : world) :
  for_each l (fun x => if negb (p x) then raise e else ret tt) w
  = (if forallb p l then Ok tt else Raise e, w).
Proof.
  induction l as [|x l IH]; simpl; [reflexivity|].
  unfold bind. destruct (p x); simpl; [exact IH | reflexivity].
Qed.

Lemma set_column_list_world (columns : string) (w : world) :
  snd (set_column_list columns w) = with_columns_list (PyStr.lower columns) w.
Proof.
  unfold set_column_list, bind, write, read; simpl.
  destruct (Nat.eqb _ 2); simpl; [|reflexivity].
  rewrite for_each_check. reflexivity.
Qed.

Lemma set_column_list_result (columns : string) (w : world) :
  if valid_selection (PyStr.lower columns)
  then fst (set_column_list columns w) = Ok tt
  else exists message, fst (set_column_list columns w) = Raise (Exception message).
Proof.
  unfold valid_selection, set_column_list, bind, write, read; simpl.
  destruct (Nat.eqb _ 2); simpl.
  - rewrite for_each_check.
    destruct (forallb _ _); simpl; [reflexivity | eauto].
  - eauto.
Qed.

Lemma set_distance_metric_world (distance : string) (w : world) :
  snd (set_distance_metric distance w)
  = with_distance_metric (PyStr.upper distance) w.
Proof.
  unfold set_distance_metric, bind, write, read.
  cbn [distance_metric with_distance_metric].
  destruct (PyStr.mem _ _); reflexivity.
Qed.

Lemma set_distance_metric_result (distance : string) (w : world) :
  if PyStr.mem (PyStr.upper distance) distance_names
  then fst (set_distance_metric distance w) = Ok tt
  else exists message,
      fst (set_distance_metric distance w) = Raise (Exception message).
Proof.
  unfold set_distance_metric, bind, write, read.
  cbn [distance_metric with_distance_metric].
  rewrite upper_idempotent.
  destruct (PyStr.mem _ _); simpl; eauto.
Qed.

Lemma set_customer_world (name : string) (w : world) :
  snd (set_customer name w) = with_customer_name (PyStr.title name) w.
Proof.
  unfold set_customer, bind, write, read.
  cbn [customer_name with_customer_name].
  destruct (PyStr.mem _ _); reflexivity.
Qed.

Lemma set_customer_result (name : string) (w : world) :
  if PyStr.mem (PyStr.title name) customer_names
  then fst (set_customer name w) = Ok tt
  else exists message, fst (set_customer name w) = Raise (Exception message).
Proof.
  unfold set_customer, bind, write, read.
  cbn [customer_name with_customer_name].
  rewrite title_idempotent.
  destruct (PyStr.mem _ _); simpl; eauto.
Qed.

Lemma set_distance_metric_accepts_documented (distance : string) (w : world) :
  In (PyStr.upper distance) documented_metrics ->
  set_distance_metric distance w
  = (Ok tt, with_distance_metric (PyStr.upper distance) w).
Proof.
  intro H.
  assert (M : PyStr.mem (PyStr.upper distance) distance_names = true).
  { apply mem_In. unfold documented_metrics in H. unfold distance_names.
    simpl in H |- *. intuition. }
  pose proof (set_distance_metric_result distance w) as R.
  pose proof (set_distance_metric_world distance w) as W.
  rewrite M in R. destruct (set_distance_metric distance w) as [r w'].
  simpl in R, W. now subst.
Qed.

Lemma set_distance_metric_rejects_others (distance : string) (w : world) :
  ~ In (PyStr.upper distance) ("HAMMER" :: documented_metrics) ->
  exists message,
    set_distance_metric distance w
    = (Raise (Exception message), with_distance_metric (PyStr.upper distance) w).
Proof.
  intro H.
  assert (M : PyStr.mem (PyStr.upper distance) distance_names = false).
  { destruct (PyStr.mem _ _) eqn:E; [|reflexivity].
    exfalso. apply H. apply mem_In in E.
    unfold distance_names in E. unfold documented_metrics.
    simpl in E |- *. intuition. }
  pose proof (set_distance_metric_result distance w) as R.
  pose proof (set_distance_metric_world distance w) as W.
  rewrite M in R. destruct R as [message R]. exists message.
  destruct (set_distance_metric distance w) as [r w'].
  simpl in R, W. now subst.
Qed.

(** C3.  The claim lets exactly the six documented metric names through.
    The setter lets a seventh through: ["hammer"] upper-cases to
    ["HAMMER"], which is none of the six, and [set_distance_metric]
    returns normally with it stored. *)
Theorem set_distance_metric_hammer :
  ~ In (PyStr.upper "hammer") documented_metrics
  /\ forall w : world,
      set_distance_metric "hammer" w = (Ok tt, with_distance_metric "HAMMER" w).
Proof.
  split.
  - unfold documented_metrics. simpl. intuition discriminate.
  - intro w. reflexivity.
Qed.

(** C4, as amended.  For a selection written in ASCII, [set_column_list]
    first stores the lower-cased selection and then checks it: whatever
    the outcome, the stored selection is the lower-cased input and nothing
    else in the world has changed (subject name and metric included); the
    call returns normally when the lower-cased selection is two
    allow-listed names and raises a validation error otherwise. *)
Theorem set_column_list_validates (columns : string) (w : world) :
  PyStr.isascii columns = true ->
  snd (set_column_list columns w) = with_columns_list (PyStr.lower columns) w
  /\ columns_list (snd (set_column_list columns w)) = PyStr.lower columns
  /\ customer_name (snd (set_column_list columns w)) = customer_name w
  /\ distance_metric (snd (set_column_list columns w)) = distance_metric w
  /\ (if valid_selection (PyStr.lower columns)
      then fst (set_column_list columns w) = Ok tt
      else exists message,
          fst (set_column_list columns w) = Raise (Exception message)).
Proof.
  intros _. rewrite set_column_list_world.
  repeat split; try reflexivity.
  apply set_column_list_result.
Qed.

(** C4 as stated fails twice.  A one-entry selection is refused, but the
    stored selection has already been overwritten; and a selection whose
    entries are outside the allow-list as written (["AGE"]) is let
    through, because the check is made on the lower-cased text. *)
Lemma set_column_list_overwrites_on_error :
  (List.length (PyStr.split "," "age") <> 2%nat
   /\ fst (set_column_list "age" fresh) = Raise (Exception "Specify 1 or 2 columns")
   /\ columns_list (snd (set_column_list "age" fresh)) <> columns_list fresh)
  /\ (In "AGE" (PyStr.split "," "AGE,INCOME")
      /\ ~ In "AGE" column_names
      /\ fst (set_column_list "AGE,INCOME" fresh) = Ok tt).
Proof.
  repeat split; try reflexivity; try (simpl; auto; fail);
    try (vm_compute; congruence).
  unfold column_names. simpl. intuition discriminate.
Qed.

(** C9.  ["John"] is a seeded name, the allow-list of [set_customer] is
    the seeded names without it, and [set_customer "John"] raises the
    validation error (with ["John"] already stored). *)
Theorem set_customer_rejects_john :
  In "John" (map (fun d => fst (fst d)) data_to_insert)
  /\ customer_names
     = filter (fun n => negb (String.eqb n "John"))
              (map (fun d => fst (fst d)) data_to_insert)
  /\ forall w : world,
      set_customer "John" w
      = (Raise (Exception "Customer name must be one of Jessica, David, Matthew, Brandon, Joshua, Amanda, Lauren, James, Olivia"),
         with_customer_name "John" w).
Proof.
  split; [simpl; auto|]. split; reflexivity.
Qed.

(** ** The connection *)

Lemma get_connection_success (w : world) :
  oracledb_connect (getenv "DB_USER") (getenv "DB_PASS") (getenv "DB_URL") = None ->
  get_connection w = (Ok (Some (sessions w)), with_sessions (S (sessions w)) w).
Proof.
  intro H. unfold get_connection, try_except, bind, connect. rewrite H.
  reflexivity.
Qed.

Lemma get_connection_refused (w : world) (e : exn) :
  oracledb_connect (getenv "DB_USER") (getenv "DB_PASS") (getenv "DB_URL") = Some e ->
  get_connection w = (Ok None, with_stdout (stdout w ++ ["Connection failed!"]) w).
Proof.
  intro H. unfold get_connection, try_except, bind, connect. rewrite H.
  reflexivity.
Qed.

(** C8.  Whatever exception [oracledb.connect] raises for the configured
    credentials, [get_connection] returns normally, its result is [None],
    and the only trace is the line it printed. *)
Theorem get_connection_swallows_failure (w : world) (e : exn) :
  oracledb_connect (getenv "DB_USER") (getenv "DB_PASS") (getenv "DB_URL") = Some e ->
  get_connection w = (Ok None, with_stdout (stdout w ++ ["Connection failed!"]) w).
Proof. apply get_connection_refused. Qed.

(** ** Rebuilding the table *)

Lemma create_schema_seeds (w : world) (h : handle) :
  connection w = Some (Some h) ->
  fst (create_schema w) = Ok tt
  /\ connection (snd (create_schema w)) = Some (Some h)
  /\ database (snd (create_schema w)) = Some seed_table.
Proof.
  destruct w as [cl cn dm c d s j o pl]. simpl. intro H. subst c.
  repeat split.
Qed.

(** C5, as amended.  Over a live connection and a schema without the
    customer table, the guarded drop ([drop table if exists]) raises
    nothing and leaves the schema as it was, and [create_schema] goes on
    to create the table and load the ten seed rows. *)
Theorem create_schema_absent_table (w : world) (h : handle) :
  connection w = Some (Some h) ->
  database w = None ->
  Engine.drop_table_if_exists (database w) = Ok (tt, None)
  /\ fst (create_schema w) = Ok tt
  /\ database (snd (create_schema w)) = Some seed_table
  /\ List.length (Engine.rows seed_table) = 10%nat.
Proof.
  intros Hc Hd. split; [reflexivity|].
  destruct (create_schema_seeds w h Hc) as [R [_ D]].
  repeat split; assumption.
Qed.

(** C5 as stated fails: in front of a schema without the table,
    [create_schema] raises no database error and the table is there
    afterwards. *)
Lemma create_schema_does_not_raise :
  database connected = None
  /\ fst (create_schema connected) <> Raise DatabaseError
  /\ fst (create_schema connected) = Ok tt
  /\ database (snd (create_schema connected)) = Some seed_table.
Proof.
  repeat split. vm_compute. discriminate.
Qed.

(** ** Single precision is exact on the seed data *)

Lemma round_bits_exact (p n : Z) :
  0 < p -> Z.abs n < 2 ^ p -> Float32.round_bits p n = n.
Proof.
  intros Hp Hn. unfold Float32.round_bits.
  assert (L : Z.log2 (Z.abs n) < p).
  { destruct (Z.eq_dec (Z.abs n) 0) as [E|E].
    - rewrite E. simpl. lia.
    - apply Z.log2_lt_pow2; lia. }
  destruct (Z.leb_spec (Z.log2 (Z.abs n) + 1 - p) 0); [reflexivity | lia].
Qed.

Lemma of_int_exact (n : Z) : Z.abs n < 2 ^ 24 -> Float32.of_int n = n.
Proof.
  intro H. unfold Float32.of_int.
  rewrite (round_bits_exact 53 n); [|lia|].
  - apply round_bits_exact; lia.
  - eapply Z.lt_trans; [exact H|]. reflexivity.
Qed.

Lemma round_bits_bound (p k n : Z) :
  0 < p -> 0 <= k -> Z.abs n <= 2 ^ k ->
  Z.abs (Float32.round_bits p n) <= 2 ^ k.
Proof.
  intros Hp Hk Hn. unfold Float32.round_bits.
  destruct (Z.leb_spec (Z.log2 (Z.abs n) + 1 - p) 0) as [He|He]; [exact Hn|].
  set (a := Z.abs n) in *. set (L := Z.log2 a) in *.
  set (e := L + 1 - p) in *.
  assert (Ha : 0 < a).
  { destruct (Z.eq_dec a 0) as [E|E];
      [|pose proof (Z.abs_nonneg n) as X; fold a in X; lia].
    exfalso. unfold e, L in He. rewrite E in He.
    change (Z.log2 0) with 0 in He. lia. }
  destruct (Z.log2_spec a Ha) as [Lo Hi]. fold L in Lo, Hi.
  assert (HL : 0 <= L) by apply Z.log2_nonneg.
  rewrite Z.shiftr_div_pow2 by lia.
  assert (P : 2 ^ (L + 1) = 2 ^ p * 2 ^ e).
  { rewrite <- Z.pow_add_r by lia. f_equal. unfold e. lia. }
  assert (E0 : 0 < 2 ^ e) by (apply Z.pow_pos_nonneg; lia).
  assert (Q : a / 2 ^ e < 2 ^ p).
  { apply Z.div_lt_upper_bound; [exact E0|]. rewrite Z.mul_comm, <- P.
    replace (Z.succ L) with (L + 1) in Hi by lia. exact Hi. }
  assert (Q0 : 0 <= a / 2 ^ e) by (apply Z.div_pos; lia).
  rewrite Z.abs_mul, Z.shiftl_mul_pow2 by lia.
  assert (S1 : Z.abs (Z.sgn n) = 1).
  { unfold a in Ha. destruct n; simpl in *; lia. }
  rewrite S1, Z.mul_1_l.
  destruct (Z.eq_dec a (2 ^ k)) as [Ek|Nk].
  - (* a power of two is not rounded *)
    assert (Lk : L = k).
    { unfold L. rewrite Ek. apply Z.log2_pow2. exact Hk. }
    assert (R0 : Z.land a (Z.ones e) = 0).
    { rewrite Z.land_ones by lia. rewrite Ek.
      replace k with ((k - e) + e) by lia. rewrite Z.pow_add_r by lia.
      apply Z.mod_mul. lia. }
    rewrite R0.
    assert (H1 : 0 < Z.shiftl 1 (e - 1)).
    { rewrite Z.shiftl_mul_pow2 by lia. rewrite Z.mul_1_l.
      apply Z.pow_pos_nonneg; lia. }
    destruct (Z.ltb_spec (Z.shiftl 1 (e - 1)) 0) as [X|X]; [lia|].
    destruct (Z.eqb_spec 0 (Z.shiftl 1 (e - 1))) as [Y|Y]; [lia|].
    cbn [orb andb].
    rewrite Z.abs_eq by (apply Z.mul_nonneg_nonneg; lia).
    rewrite Ek. replace k with ((k - e) + e) at 1 by lia.
    rewrite Z.pow_add_r by lia. rewrite Z.div_mul by lia.
    rewrite <- Z.pow_add_r by lia. replace (k - e + e) with k by lia. lia.
  - assert (Lk : L + 1 <= k).
    { destruct (Z.lt_ge_cases L k) as [X|X]; [lia|].
      exfalso. assert (2 ^ k <= 2 ^ L) by (apply Z.pow_le_mono_r; lia).
      fold a in Hn. lia. }
    assert (B : 2 ^ (L + 1) <= 2 ^ k) by (apply Z.pow_le_mono_r; lia).
    match goal with
    | |- Z.abs (?q' * _) <= _ => assert (Q' : 0 <= q' <= 2 ^ p)
    end.
    { destruct (_ || _)%bool; lia. }
    rewrite Z.abs_eq by (apply Z.mul_nonneg_nonneg; lia).
    apply Z.le_trans with (2 ^ p * 2 ^ e); [|lia].
    apply Z.mul_le_mono_nonneg_r; lia.
Qed.

Lemma of_int_in_range (n : Z) :
  number_38 n -> Z.abs (Float32.of_int n) <= Float32.max.
Proof.
  unfold number_38. intro H.
  apply Z.le_trans with (2 ^ 127); [|vm_compute; discriminate].
  unfold Float32.of_int.
  apply round_bits_bound; [lia | lia |].
  apply round_bits_bound; [lia | lia |].
  apply Z.lt_le_incl. apply Z.lt_trans with (10 ^ 38); [exact H|].
  vm_compute. reflexivity.
Qed.

(** C2.  Over a live connection, [customers_chart "age,income"
    "euclidean"] returns a figure and leaves a table of exactly the ten
    seed rows, each with a non-null profile of length 2 that is its
    [age] and [income] converted to single precision (which, for these
    values, are the integers themselves). *)
Theorem customers_chart_embeddings (w : world) (h : handle) :
  connection w = Some (Some h) ->
  (exists fig, fst (customers_chart "age,income" "euclidean" w) = Ok fig)
  /\ exists t,
      database (snd (customers_chart "age,income" "euclidean" w)) = Some t
      /\ List.length (Engine.rows t) = 10%nat
      /\ map (fun r => (Engine.name r, Engine.age r, Engine.income r))
             (Engine.rows t) = data_to_insert
      /\ Forall (fun r =>
                   Engine.profile r
                   = Some (map Float32.of_int [Engine.age r; Engine.income r])
                   /\ Engine.profile r = Some [Engine.age r; Engine.income r]
                   /\ has_embedding 2 r)
                (Engine.rows t).
Proof.
  destruct w as [cl cn dm c d s j o pl]. simpl. intro H. subst c.
  remember (customers_chart "age,income" "euclidean"
              (mkWorld cl cn dm (Some (Some h)) d s j o pl)) as res eqn:E.
  vm_compute in E. subst res. cbn [fst snd database].
  split; [eexists; reflexivity|].
  eexists. split; [reflexivity|]. cbn [Engine.rows].
  split; [reflexivity|]. split; [reflexivity|].
  repeat (apply Forall_cons;
          [ split; [reflexivity|]; split; [reflexivity|];
            eexists; split; reflexivity | ]).
  apply Forall_nil.
Qed.

(** ** The nearest rows *)

Lemma euclidean_distance_nonneg (a q : Engine.vector) :
  (0 <= Engine.euclidean_distance a q)%R.
Proof. apply sqrt_pos. Qed.

Lemma euclidean_distance_le (a b q : Engine.vector) :
  Engine.squared_distance a q <= Engine.squared_distance b q ->
  (Engine.euclidean_distance a q <= Engine.euclidean_distance b q)%R.
Proof.
  intro H. unfold Engine.euclidean_distance.
  apply sqrt_le_1_alt. apply IZR_le. exact H.
Qed.

Lemma Forall_insert_sorted {A} (le : A -> A -> bool) (P : A -> Prop)
      (x : A) (l : list A) :
  Forall P (Engine.insert_sorted le x l) <-> P x /\ Forall P l.
Proof.
  induction l as [|y l IH]; simpl.
  - split; [intro H; inversion H; auto | intros [H ?]; auto].
  - destruct (le x y).
    + split; [intro H; inversion H; auto | intros [H ?]; auto].
    + split.
      * intro H. inversion H as [|? ? Hy Hl]; subst.
        apply IH in Hl. destruct Hl. auto.
      * intros [Hx Hl]. inversion Hl; subst.
        constructor; [assumption | apply IH; auto].
Qed.

Lemma Forall_sort {A} (le : A -> A -> bool) (P : A -> Prop) (l : list A) :
  Forall P (Engine.sort le l) <-> Forall P l.
Proof.
  induction l as [|x l IH]; simpl; [tauto|].
  rewrite Forall_insert_sorted, IH.
  split; [intros [? ?]; auto | intro H; inversion H; auto].
Qed.

Section Sorting.

Context {A : Type} (le : A -> A -> bool).
Hypothesis le_total : forall a b, le a b = true \/ le b a = true.
Hypothesis le_trans :
  forall a b c, le a b = true -> le b c = true -> le a c = true.

Let le_prop (a b : A) : Prop := le a b = true.

Lemma insert_sorted_sorted (x : A) (l : list A) :
  StronglySorted le_prop l ->
  StronglySorted le_prop (Engine.insert_sorted le x l).
Proof.
  induction l as [|y l IH]; intro S; simpl.
  - constructor; constructor.
  - apply StronglySorted_inv in S. destruct S as [Sl Fy].
    destruct (le x y) eqn:E.
    + constructor; [constructor; assumption|].
      constructor; [exact E|].
      eapply Forall_impl; [|exact Fy].
      intros z Hz. exact (le_trans x y z E Hz).
    + constructor; [apply IH; assumption|].
      apply Forall_insert_sorted. split; [|assumption].
      destruct (le_total x y) as [H|H]; [congruence | exact H].
Qed.

Lemma sort_sorted (l : list A) : StronglySorted le_prop (Engine.sort le l).
Proof.
  induction l as [|x l IH]; simpl; [constructor|].
  apply insert_sorted_sorted. exact IH.
Qed.

End Sorting.

Lemma firstn_incl {A} (n : nat) (l : list A) (x : A) :
  In x (firstn n l) -> In x l.
Proof.
  revert l. induction n as [|n IH]; intros [|y l]; simpl; try tauto.
  intros [H|H]; [left; exact H | right; apply IH; exact H].
Qed.

Lemma StronglySorted_firstn {A} (R : A -> A -> Prop) (n : nat) (l : list A) :
  StronglySorted R l -> StronglySorted R (firstn n l).
Proof.
  revert l. induction n as [|n IH]; intros l S; simpl; [constructor|].
  destruct l as [|x l]; [constructor|].
  apply StronglySorted_inv in S. destruct S as [Sl Fx].
  constructor; [apply IH; assumption|].
  rewrite Forall_forall in Fx |- *. intros y Hy.
  apply Fx. eapply firstn_incl; eassumption.
Qed.

Lemma StronglySorted_map {A B} (R : A -> A -> Prop) (R' : B -> B -> Prop)
      (f : A -> B) (l : list A) :
  (forall a b, In a l -> In b l -> R a b -> R' (f a) (f b)) ->
  StronglySorted R l -> StronglySorted R' (map f l).
Proof.
  induction l as [|x l IH]; intros H S; simpl; [constructor|].
  apply StronglySorted_inv in S. destruct S as [Sl Fx].
  constructor.
  - apply IH; [|assumption]. intros a b Ha Hb. apply H; right; assumption.
  - rewrite Forall_forall in Fx |- *. intros y Hy.
    apply in_map_iff in Hy. destruct Hy as [z [E Hz]]. subst y.
    apply H; [left; reflexivity | right; assumption | apply Fx; assumption].
Qed.

(** Whatever the table, when every row carries a vector the Euclidean
    query answers with at most [k] rows in non-decreasing distance to
    the subject's vector. *)
Lemma select_nearest_euclidean (t : Engine.table) (q : Engine.vector) (k : Z) :
  Engine.profile_width t <> None ->
  Forall (fun r => Engine.profile r <> None) (Engine.rows t) ->
  exists answer vs,
    select_nearest "EUCLIDEAN" (Some q) k (Some t) = Ok (answer, Some t)
    /\ (List.length answer <= Z.to_nat k)%nat
    /\ map snd answer = map Some vs
    /\ StronglySorted Rle (map (fun v => Engine.euclidean_distance v q) vs).
Proof.
  intros Hw Hp.
  set (le := fun r1 r2 : Engine.customer =>
               Engine.nulls_last (Engine.by_rank Engine.squared_distance)
                                 (Some q) (Engine.profile r1) (Engine.profile r2)).
  set (chosen := firstn (Z.to_nat k) (Engine.sort le (Engine.rows t))).
  assert (Hc : Forall (fun r => Engine.profile r <> None) chosen).
  { rewrite Forall_forall. intros r Hr. apply firstn_incl in Hr.
    revert r Hr. rewrite <- Forall_forall. apply Forall_sort. exact Hp. }
  assert (Sc : StronglySorted (fun a b => le a b = true) chosen).
  { apply StronglySorted_firstn. apply sort_sorted.
    - intros a b. unfold le, Engine.nulls_last, Engine.by_rank.
      destruct (Engine.profile a), (Engine.profile b); auto.
      rewrite !Z.leb_le. lia.
    - intros a b c. unfold le, Engine.nulls_last, Engine.by_rank.
      destruct (Engine.profile a), (Engine.profile b), (Engine.profile c);
        auto; try discriminate.
      rewrite !Z.leb_le. lia. }
  exists (map (fun r => (Engine.name r, Engine.profile r)) chosen).
  exists (map (fun r => match Engine.profile r with
                        | Some v => v
                        | None => []
                        end) chosen).
  split; [|split; [|split]].
  - unfold select_nearest.
    destruct (Engine.profile_width t); [|congruence].
    change (metric_ordering "EUCLIDEAN")
      with (Some (Engine.by_rank Engine.squared_distance)).
    cbv beta iota. unfold chosen, le. rewrite firstn_map. reflexivity.
  - rewrite length_map. unfold chosen. apply firstn_le_length.
  - rewrite !map_map. apply map_ext_in. intros r Hr. simpl.
    rewrite Forall_forall in Hc. specialize (Hc r Hr).
    destruct (Engine.profile r); congruence.
  - rewrite map_map.
    apply StronglySorted_map with (R := fun a b => le a b = true);
      [|exact Sc].
    intros a b Ha Hb. rewrite Forall_forall in Hc.
    pose proof (Hc a Ha) as Pa. pose proof (Hc b Hb) as Pb.
    unfold le, Engine.nulls_last, Engine.by_rank.
    destruct (Engine.profile a), (Engine.profile b); try congruence.
    intro L. apply Z.leb_le in L. apply euclidean_distance_le. exact L.
Qed.

(** The ten seed rows lie at ten different distances from Jessica's, so
    the order among them does not depend on how ties are broken. *)
Lemma seed_distances_distinct :
  NoDup (map (fun d : string * Z * Z =>
                Engine.squared_distance
                  (map Float32.of_int [snd (fst d); snd d]) jessica)
             data_to_insert).
Proof.
  vm_compute.
  repeat (constructor; [simpl; intuition discriminate|]).
  constructor.
Qed.

Lemma similarity_chart_rows_jessica (w : world) (h : handle) :
  connection w = Some (Some h) ->
  fst (similarity_chart_rows "age,income" "Jessica" "euclidean" w)
  = Ok [ ("Jessica", Some [22; 7000]);
         ("John",    Some [28; 6500]);
         ("Amanda",  Some [33; 6500]) ].
Proof.
  destruct w as [cl cn dm c d s j o pl]. simpl. intro H. subst c.
  unfold similarity_chart_rows, get_connection, connect.
  destruct (oracledb_connect (getenv "DB_USER") (getenv "DB_PASS")
                             (getenv "DB_URL"));
    vm_compute; reflexivity.
Qed.

(** C1.  Over a live connection, the rows the similarity query returns
    inside [similarity_chart "age,income" "Jessica" "euclidean"] are at
    most three, every one carries a vector, the Euclidean distances of
    these vectors to Jessica's [age, income] vector never decrease along
    the list, and none of them is negative. *)
Theorem similarity_chart_nearest (w : world) (h : handle) :
  connection w = Some (Some h) ->
  exists nearest vs,
    fst (similarity_chart_rows "age,income" "Jessica" "euclidean" w) = Ok nearest
    /\ (List.length nearest <= 3)%nat
    /\ map snd nearest = map Some vs
    /\ StronglySorted Rle
         (map (fun v => Engine.euclidean_distance v jessica) vs)
    /\ Forall (fun v => (0 <= Engine.euclidean_distance v jessica)%R) vs.
Proof.
  intro H.
  exists [ ("Jessica", Some [22; 7000]); ("John", Some [28; 6500]);
           ("Amanda", Some [33; 6500]) ].
  exists [ [22; 7000]; [28; 6500]; [33; 6500] ].
  split; [exact (similarity_chart_rows_jessica w h H)|].
  split; [simpl; lia|]. split; [reflexivity|].
  split.
  - cbn [map].
    repeat (apply SSorted_cons; [|repeat apply Forall_cons; try apply Forall_nil;
                                  apply euclidean_distance_le; vm_compute;
                                  discriminate]).
    apply SSorted_nil.
  - repeat apply Forall_cons; try apply Forall_nil;
      apply euclidean_distance_nonneg.
Qed.

(** ** Which session carries the statements *)

Lemma calm_step_refl (c : option (option handle)) (w : world) :
  connection w = c -> calm_step c w w.
Proof.
  intro H. split; [exact H|]. exists []. split; [now rewrite app_nil_r|].
  constructor.
Qed.

Lemma calm_step_trans (c : option (option handle)) (w w1 w2 : world) :
  calm_step c w w1 -> calm_step c w1 w2 -> calm_step c w w2.
Proof.
  intros [_ [s1 [J1 F1]]] [C2 [s2 [J2 F2]]]. split; [exact C2|].
  exists (s1 ++ s2)%list. split.
  - rewrite J2, J1, app_assoc. reflexivity.
  - apply Forall_app. split; assumption.
Qed.


Lemma quiet_ret {A} c (a : A) : quiet c (ret a).
Proof. intros w H. split; [apply calm_step_refl; exact H | reflexivity]. Qed.

Lemma quiet_raise {A} c (e : exn) : quiet c (@raise A e).
Proof. intros w H. split; [apply calm_step_refl; exact H | reflexivity]. Qed.

Lemma quiet_read {A} c (f : world -> A) : quiet c (read f).
Proof. intros w H. split; [apply calm_step_refl; exact H | reflexivity]. Qed.

Lemma quiet_lift {A} c (o : outcome A) : quiet c (lift o).
Proof. intros w H. split; [apply calm_step_refl; exact H | reflexivity]. Qed.

Lemma quiet_write c (f : world -> world) :
  (forall w, connection (f w) = connection w
             /\ sessions (f w) = sessions w
             /\ journal (f w) = journal w) ->
  quiet c (write f).
Proof.
  intros F w H. destruct (F w) as [C [S J]]. simpl.
  split; [|exact S]. split; [congruence|].
  exists []. split; [now rewrite app_nil_r|]. constructor.
Qed.

Lemma quiet_bind {A B} c (m : M A) (k : A -> M B) :
  quiet c m -> (forall a, quiet c (k a)) -> quiet c (bind m k).
Proof.
  intros Hm Hk w H. unfold bind.
  specialize (Hm w H). destruct (m w) as [[a|e] w1]; simpl in Hm |- *.
  - destruct Hm as [St Se]. destruct (Hk a w1 (proj1 St)) as [St' Se'].
    split; [eapply calm_step_trans; eassumption | congruence].
  - exact Hm.
Qed.


Lemma quiet_cursor_bind {B} c (k : handle -> M B) :
  (forall h, c = Some (Some h) -> quiet c (k h)) ->
  quiet c (bind connection_cursor k).
Proof.
  intros Hk w H. unfold bind, connection_cursor.
  destruct (connection w) as [[h|]|] eqn:E; simpl.
  - apply Hk; congruence.
  - split; [apply calm_step_refl; congruence | reflexivity].
  - split; [apply calm_step_refl; congruence | reflexivity].
Qed.

Lemma quiet_try_except {A} c (m : M A) (handler : exn -> option (M A)) :
  quiet c m ->
  (forall e k, handler e = Some k -> quiet c k) ->
  quiet c (try_except m handler).
Proof.
  intros Hm Hh w H. unfold try_except.
  specialize (Hm w H). destruct (m w) as [[a|e] w1]; simpl in Hm |- *.
  - exact Hm.
  - destruct (handler e) as [k|] eqn:E; simpl; [|exact Hm].
    destruct Hm as [St Se]. destruct (Hh e k E w1 (proj1 St)) as [St' Se'].
    split; [eapply calm_step_trans; eassumption | congruence].
Qed.

Lemma quiet_except_DatabaseError {A} c (m : M A) (body : exn -> M A) :
  quiet c m -> (forall e, quiet c (body e)) ->
  quiet c (try_except m (except_DatabaseError body)).
Proof.
  intros Hm Hb. apply quiet_try_except; [exact Hm|].
  intros e k E. destruct e; simpl in E; try discriminate.
  inversion E. apply Hb.
Qed.

Lemma quiet_for_each {A} c (l : list A) (body : A -> M unit) :
  (forall x, quiet c (body x)) -> quiet c (for_each l body).
Proof.
  intro Hb. induction l as [|x l IH]; simpl.
  - apply quiet_ret.
  - apply quiet_bind; [apply Hb | intros _; exact IH].
Qed.

Lemma quiet_map_m {A B} c (f : A -> M B) (l : list A) :
  (forall x, quiet c (f x)) -> quiet c (map_m f l).
Proof.
  intro Hf. induction l as [|x l IH]; simpl.
  - apply quiet_ret.
  - apply quiet_bind; [apply Hf | intros y].
    apply quiet_bind; [exact IH | intros ys; apply quiet_ret].
Qed.

Lemma quiet_if {A} c (b : bool) (m1 m2 : M A) :
  quiet c m1 -> quiet c m2 -> quiet c (if b then m1 else m2).
Proof. destruct b; auto. Qed.

Lemma quiet_execute {A} c (h : handle) (sql : string)
      (statement : Engine.schema -> Engine.reply A) :
  c = Some (Some h) -> quiet c (cursor_execute h sql statement).
Proof.
  intros Hc w H. unfold cursor_execute.
  assert (St : calm_step c w (with_journal (journal w ++ [(h, sql)]) w)).
  { split; [exact H|]. exists [(h, sql)]. split; [reflexivity|].
    constructor; [exact Hc | constructor]. }
  destruct (statement (database w)) as [[a s]|e]; simpl;
    (split; [exact St | reflexivity]).
Qed.

Lemma quiet_commit c : quiet c connection_commit.
Proof.
  unfold connection_commit. apply quiet_cursor_bind. intros h Hc w H.
  simpl. split; [|reflexivity]. split; [exact H|].
  exists [(h, "commit")]. split; [reflexivity|].
  constructor; [exact Hc | constructor].
Qed.

Lemma quiet_draw c (d : drawing) : quiet c (draw d).
Proof. apply quiet_write. intro w. repeat split. Qed.

Create HintDb quiet.
#[local] Hint Resolve quiet_ret quiet_raise quiet_read quiet_lift quiet_commit
     quiet_execute quiet_if quiet_map_m quiet_for_each
     quiet_except_DatabaseError quiet_draw : quiet.
#[local] Hint Resolve quiet_cursor_bind quiet_bind | 2 : quiet.

Lemma quiet_insert_data c : quiet c insert_data.
Proof. unfold insert_data. auto 10 with quiet. Qed.

Lemma quiet_create_schema c : quiet c create_schema.
Proof.
  unfold create_schema. pose proof (quiet_insert_data c).
  auto 10 with quiet.
Qed.

Lemma quiet_vectorize_data c (column_list : string) :
  quiet c (vectorize_data column_list).
Proof. unfold vectorize_data. cbv zeta. auto 20 with quiet. Qed.

Lemma quiet_get_customer_profiles c : quiet c get_customer_profiles.
Proof. unfold get_customer_profiles. auto 10 with quiet. Qed.

Lemma quiet_get_similiar_customer_profiles c column_list name k distance :
  quiet c (get_similiar_customer_profiles column_list name k distance).
Proof.
  unfold get_similiar_customer_profiles.
  apply quiet_cursor_bind. intros h Hc.
  apply quiet_bind; [auto with quiet|]. intros fetched. cbv zeta.
  destruct (hd_error fetched); auto with quiet.
Qed.

Lemma quiet_set_column_list c columns : quiet c (set_column_list columns).
Proof.
  unfold set_column_list.
  apply quiet_bind; [apply quiet_write; intro w; repeat split|].
  intros _. auto 10 with quiet.
Qed.

Lemma quiet_set_distance_metric c distance :
  quiet c (set_distance_metric distance).
Proof.
  unfold set_distance_metric.
  apply quiet_bind; [apply quiet_write; intro w; repeat split|].
  intros _. auto 10 with quiet.
Qed.

Lemma quiet_set_customer c name : quiet c (set_customer name).
Proof.
  unfold set_customer.
  apply quiet_bind; [apply quiet_write; intro w; repeat split|].
  intros _. auto 10 with quiet.
Qed.

Lemma get_connection_world (w : world) :
  get_connection w
  = if accepted
    then (Ok (Some (sessions w)), with_sessions (S (sessions w)) w)
    else (Ok None, with_stdout (stdout w ++ ["Connection failed!"]) w).
Proof.
  unfold accepted.
  destruct (oracledb_connect _ _ _) as [e|] eqn:E.
  - apply (get_connection_refused w e E).
  - apply get_connection_success. exact E.
Qed.

Lemma calm_get_connection c : calm c get_connection.
Proof.
  intros w H. rewrite get_connection_world.
  destruct accepted; simpl;
    (split; [exact H | exists []; split; [now rewrite app_nil_r | constructor]]).
Qed.

#[local] Hint Resolve quiet_create_schema quiet_vectorize_data
     quiet_get_customer_profiles quiet_get_similiar_customer_profiles
     quiet_set_column_list quiet_set_distance_metric quiet_set_customer
  : quiet.







(** ** The embedding builder *)

Lemma map_m_binds (fetched : list (Z * list Engine.value)) (w : world) :
  map_m (fun row : Z * list Engine.value =>
           profile_embedding <- lift (array_f (snd row)) ;;
           ret (profile_embedding, fst row))
        fetched w
  = (binds_of fetched, w).
Proof.
  induction fetched as [|row fetched IH]; simpl; [reflexivity|].
  unfold bind, lift, ret in *.
  destruct (array_f (snd row)) as [v|e]; [|reflexivity].
  rewrite IH. destruct (binds_of fetched); reflexivity.
Qed.

Lemma clear_profile_idempotent (rs : list Engine.customer) :
  map Engine.clear_profile (map Engine.clear_profile rs)
  = map Engine.clear_profile rs.
Proof. rewrite map_map. apply map_ext. intros r. reflexivity. Qed.

Lemma bind_assoc {A B C} (m : M A) (k : A -> M B) (k' : B -> M C) (w : world) :
  bind (bind m k) k' w = bind m (fun a => bind (k a) k') w.
Proof. unfold bind. destruct (m w) as [[a|e] w1]; reflexivity. Qed.

Lemma vectorize_data_halves (column_list : string) (w : world) :
  vectorize_data column_list w
  = (add_remove_vector_column column_list ;; vectorize_rows column_list) w.
Proof.
  unfold vectorize_data, add_remove_vector_column, vectorize_rows. cbv zeta.
  symmetry. apply bind_assoc.
Qed.

Lemma add_remove_vector_column_effect (column_list : string) (w : world)
      (h : handle) (t : Engine.table) :
  List.length (PyStr.split "," column_list) = 2%nat ->
  connection w = Some (Some h) ->
  database w = Some t ->
  exists j',
    add_remove_vector_column column_list w
    = (Ok tt, with_journal j' (with_database (Some (resized column_list t)) w)).
Proof.
  intros Hn Hc Hd.
  destruct w as [cl cn dm c d s j o pl]. simpl in Hc, Hd. subst c d.
  destruct t as [idn pw rs].
  unfold add_remove_vector_column, resized. rewrite Hn. cbv zeta.
  destruct pw as [k|].
  - eexists. cbn. rewrite clear_profile_idempotent. reflexivity.
  - eexists. cbn. reflexivity.
Qed.

Lemma bind_run {A B} (m : M A) (k : A -> M B) (w : world) :
  bind m k w
  = match m w with
    | (Ok a, w1) => k a w1
    | (Raise e, w1) => (Raise e, w1)
    end.
Proof. reflexivity. Qed.

Lemma select_id_and_schema column_list s fetched s' :
  Engine.select_id_and column_list s = Ok (fetched, s') -> s' = s.
Proof.
  unfold Engine.select_id_and. destruct s as [t|]; [|discriminate].
  destruct (Engine.columns t _); [|discriminate].
  intro H. inversion H. reflexivity.
Qed.

Lemma update_profile_table binds t u s' :
  Engine.update_profile binds (Some t) = Ok (u, s') ->
  exists n,
    Engine.profile_width t = Some n
    /\ forallb (fun b : Engine.vector * Z => Nat.eqb (List.length (fst b)) n)
               binds = true
    /\ s' = Some (Engine.mkTable (Engine.identity t) (Some n)
                    (fold_left (fun rs b => map (Engine.update_row b) rs)
                               binds (Engine.rows t))).
Proof.
  unfold Engine.update_profile.
  destruct (Engine.profile_width t) as [n|]; [|discriminate].
  match goal with
  | |- context [forallb ?f binds] => destruct (forallb f binds) eqn:E
  end; [|discriminate].
  intro H. inversion H. exists n. repeat split. exact E.
Qed.

Lemma vectorize_rows_effect (column_list : string) (w : world)
      (h : handle) (t : Engine.table) :
  connection w = Some (Some h) ->
  database w = Some t ->
  exists j',
    vectorize_rows column_list w
    = (match embedded column_list t with
       | Ok _ => Ok tt
       | Raise e => Raise e
       end,
       with_journal j'
         (with_database
            (Some match embedded column_list t with
                  | Ok t' => t'
                  | Raise _ => t
                  end) w)).
Proof.
  intros Hc Hd.
  destruct w as [cl cn dm c d s j o pl]. simpl in Hc, Hd. subst c d.
  unfold vectorize_rows, embedded. cbv zeta.
  rewrite bind_run. cbn [connection_cursor connection].
  rewrite bind_run. unfold cursor_execute at 1. cbn [database journal].
  destruct (Engine.select_id_and column_list (Some t))
    as [[fetched s']|e] eqn:E.
  - apply select_id_and_schema in E. subst s'.
    rewrite bind_run, map_m_binds.
    destruct (binds_of fetched) as [binds|e].
    + rewrite bind_run. unfold cursor_execute.
      cbn [database journal with_database with_journal columns_list
           customer_name distance_metric connection sessions stdout].
      destruct (Engine.update_profile binds (Some t)) as [[u s']|e] eqn:U.
      * apply update_profile_table in U. destruct U as [n [_ [_ ->]]].
        eexists. cbn. reflexivity.
      * eexists. reflexivity.
    + eexists. reflexivity.
  - eexists. reflexivity.
Qed.

Lemma vectorize_data_effect (column_list : string) (w : world)
      (h : handle) (t : Engine.table) :
  List.length (PyStr.split "," column_list) = 2%nat ->
  connection w = Some (Some h) ->
  database w = Some t ->
  exists j',
    vectorize_data column_list w
    = (match embedded column_list (resized column_list t) with
       | Ok _ => Ok tt
       | Raise e => Raise e
       end,
       with_journal j'
         (with_database
            (Some match embedded column_list (resized column_list t) with
                  | Ok t' => t'
                  | Raise _ => resized column_list t
                  end) w)).
Proof.
  intros Hn Hc Hd.
  rewrite vectorize_data_halves, bind_run.
  destruct (add_remove_vector_column_effect column_list w h t Hn Hc Hd)
    as [j1 E1].
  rewrite E1.
  destruct (vectorize_rows_effect column_list
              (with_journal j1
                 (with_database (Some (resized column_list t)) w))
              h (resized column_list t)) as [j2 E2].
  - destruct w; exact Hc.
  - destruct w; reflexivity.
  - rewrite E2. exists j2. destruct w; reflexivity.
Qed.

Lemma vectorize_data_ok_inv (column_list : string) (w : world) :
  fst (vectorize_data column_list w) = Ok tt ->
  exists h t, connection w = Some (Some h) /\ database w = Some t.
Proof.
  destruct w as [cl cn dm [[h|]|] [t|] s j o pl]; intro H;
    try (exists h, t; split; reflexivity);
    exfalso; revert H; rewrite vectorize_data_halves;
    unfold add_remove_vector_column; cbv zeta; cbn; discriminate.
Qed.

Lemma embedded_shape (column_list : string) (t t' : Engine.table) :
  embedded column_list t = Ok t' ->
  exists n fs binds,
    Engine.profile_width t = Some n
    /\ Engine.columns t (PyStr.split "," column_list) = Some fs
    /\ binds_of (map (fun r => (Engine.id r, map (fun f => f r) fs))
                     (Engine.rows t)) = Ok binds
    /\ forallb (fun b : Engine.vector * Z => Nat.eqb (List.length (fst b)) n)
               binds = true
    /\ t' = Engine.mkTable (Engine.identity t) (Some n)
              (fold_left (fun rs b => map (Engine.update_row b) rs)
                         binds (Engine.rows t)).
Proof.
  unfold embedded, Engine.select_id_and.
  destruct (Engine.columns t (PyStr.split "," column_list)) as [fs|];
    [|discriminate].
  destruct (binds_of _) as [binds|e] eqn:B; [|discriminate].
  destruct (Engine.update_profile binds (Some t)) as [[u s']|e] eqn:U;
    [|discriminate].
  apply update_profile_table in U. destruct U as [n [W [F ->]]].
  intro H. inversion H. exists n, fs, binds. repeat split; assumption.
Qed.

Lemma clear_after_updates (binds : list (Engine.vector * Z))
      (rs : list Engine.customer) :
  map Engine.clear_profile
      (fold_left (fun rs b => map (Engine.update_row b) rs) binds rs)
  = map Engine.clear_profile rs.
Proof.
  revert rs. induction binds as [|b binds IH]; intro rs; simpl;
    [reflexivity|].
  rewrite IH, map_map. apply map_ext. intro r.
  unfold Engine.update_row. destruct (Engine.id r =? snd b); reflexivity.
Qed.

Lemma resized_embedded (column_list : string) (t t' : Engine.table) :
  embedded column_list (resized column_list t) = Ok t' ->
  resized column_list t' = resized column_list t.
Proof.
  intro H. apply embedded_shape in H.
  destruct H as [n [fs [binds [_ [_ [_ [_ ->]]]]]]].
  unfold resized. cbn [Engine.identity Engine.rows].
  rewrite clear_after_updates, clear_profile_idempotent. reflexivity.
Qed.

Lemma binds_of_ids fetched binds :
  binds_of fetched = Ok binds -> map snd binds = map fst fetched.
Proof.
  revert binds. induction fetched as [|row fetched IH]; intros binds H;
    simpl in H.
  - inversion H. reflexivity.
  - destruct (array_f (snd row)) as [v|e]; [|discriminate].
    destruct (binds_of fetched) as [bs|e]; [|discriminate].
    inversion H. simpl. rewrite (IH bs eq_refl). reflexivity.
Qed.

Lemma updates_embed (n : nat) (binds : list (Engine.vector * Z)) :
  forallb (fun b : Engine.vector * Z => Nat.eqb (List.length (fst b)) n)
          binds = true ->
  forall rs,
    Forall (fun r => In (Engine.id r) (map snd binds) \/ has_embedding n r) rs ->
    Forall (has_embedding n)
           (fold_left (fun rs b => map (Engine.update_row b) rs) binds rs).
Proof.
  induction binds as [|b binds IH]; intros F rs H; simpl.
  - eapply Forall_impl; [|exact H]. intros r [[]|E]. exact E.
  - simpl in F. apply andb_prop in F. destruct F as [Fb F].
    apply Nat.eqb_eq in Fb. apply IH; [exact F|].
    rewrite Forall_forall in H |- *. intros r' Hr'.
    apply in_map_iff in Hr'. destruct Hr' as [r [E Hr]]. subst r'.
    unfold Engine.update_row.
    destruct (Z.eqb_spec (Engine.id r) (snd b)) as [Eq|Ne].
    + right. exists (fst b). split; [reflexivity | exact Fb].
    + cbn. destruct (H r Hr) as [[Hd|Hi]|He]; [congruence | left; exact Hi
                                               | right; exact He].
Qed.

Lemma embedded_rows (column_list : string) (t t' : Engine.table) (n : nat) :
  Engine.profile_width t = Some n ->
  embedded column_list t = Ok t' ->
  Engine.profile_width t' = Some n
  /\ Forall (has_embedding n) (Engine.rows t').
Proof.
  intros W H. apply embedded_shape in H.
  destruct H as [n' [fs [binds [W' [_ [B [F ->]]]]]]].
  assert (n' = n) by congruence. subst n'. split; [reflexivity|].
  cbn [Engine.rows]. apply updates_embed; [exact F|].
  apply binds_of_ids in B. rewrite B, map_map. cbn [fst].
  rewrite Forall_forall. intros r Hr. left.
  apply in_map_iff. exists r. split; [reflexivity | exact Hr].
Qed.

Lemma columns_numeric (t : Engine.table) (items : list string) :
  forallb (fun item => PyStr.mem item table_columns) items = true ->
  exists gs : list (Engine.customer -> Z),
    Engine.columns t items
    = Some (map (fun g (r : Engine.customer) => Engine.VInt (g r)) gs)
    /\ List.length gs = List.length items.
Proof.
  induction items as [|item items IH]; intro H; cbn [forallb] in H.
  - exists []. split; reflexivity.
  - apply andb_prop in H. destruct H as [Hi H].
    destruct (IH H) as [gs [E L]].
    apply mem_In in Hi. unfold table_columns in Hi. simpl in Hi.
    destruct Hi as [<-|[<-|[]]].
    + exists (Engine.age :: gs). cbn [Engine.columns]. rewrite E.
      split; [reflexivity | simpl; congruence].
    + exists (Engine.income :: gs). cbn [Engine.columns]. rewrite E.
      split; [reflexivity | simpl; congruence].
Qed.

Lemma array_f_numeric (gs : list (Engine.customer -> Z)) (r : Engine.customer) :
  array_f (map (fun f : Engine.customer -> Engine.value => f r)
               (map (fun g (r0 : Engine.customer) => Engine.VInt (g r0)) gs))
  = Ok (map (fun g => Float32.of_int (g r)) gs).
Proof.
  induction gs as [|g gs IH]; simpl; [reflexivity|].
  rewrite IH. reflexivity.
Qed.

Lemma binds_of_numeric (gs : list (Engine.customer -> Z))
      (rs : list Engine.customer) :
  binds_of (map (fun r => (Engine.id r,
                           map (fun f : Engine.customer -> Engine.value => f r)
                               (map (fun g (r0 : Engine.customer) =>
                                       Engine.VInt (g r0)) gs)))
                rs)
  = Ok (map (fun r => (map (fun g => Float32.of_int (g r)) gs, Engine.id r)) rs).
Proof.
  induction rs as [|r rs IH]; simpl; [reflexivity|].
  rewrite array_f_numeric, IH. reflexivity.
Qed.

Lemma embedded_completes (column_list : string) (t : Engine.table) :
  Engine.profile_width t = Some (List.length (PyStr.split "," column_list)) ->
  forallb (fun item => PyStr.mem item table_columns)
          (PyStr.split "," column_list) = true ->
  exists t', embedded column_list t = Ok t'.
Proof.
  intros W H.
  destruct (columns_numeric t _ H) as [gs [E L]].
  unfold embedded, Engine.select_id_and. rewrite E, binds_of_numeric.
  unfold Engine.update_profile. rewrite W.
  match goal with
  | |- context [forallb ?f ?l] =>
      assert (F : forallb f l = true)
  end.
  { apply forallb_forall. intros b Hb.
    apply in_map_iff in Hb. destruct Hb as [r [<- _]]. cbn [fst].
    rewrite length_map, L. apply Nat.eqb_refl. }
  rewrite F. eexists. reflexivity.
Qed.

Lemma valid_selection_length (column_list : string) :
  valid_selection column_list = true ->
  List.length (PyStr.split "," column_list) = 2%nat.
Proof.
  unfold valid_selection. intro H. apply andb_prop in H.
  destruct H as [H _]. apply Nat.eqb_eq. exact H.
Qed.

(** C6.  When a run of [vectorize_data] over a two-column selection
    returns normally, a second run with the same selection in the world
    the first one left returns normally too and leaves the very same
    table: every row has the embedding it had after the first run. *)
Theorem vectorize_data_idempotent (column_list : string) (w w1 : world) :
  valid_selection column_list = true ->
  vectorize_data column_list w = (Ok tt, w1) ->
  exists w2,
    vectorize_data column_list w1 = (Ok tt, w2)
    /\ database w2 = database w1.
Proof.
  intros V H. apply valid_selection_length in V.
  destruct (vectorize_data_ok_inv column_list w) as [h [t [Hc Hd]]];
    [rewrite H; reflexivity|].
  destruct (vectorize_data_effect column_list w h t V Hc Hd) as [j1 E1].
  rewrite H in E1.
  destruct (embedded column_list (resized column_list t)) as [t'|e] eqn:Em;
    [|inversion E1].
  assert (W1 : w1 = with_journal j1 (with_database (Some t') w))
    by (inversion E1; reflexivity).
  destruct (vectorize_data_effect column_list w1 h t' V) as [j2 E2].
  - subst w1. destruct w; exact Hc.
  - subst w1. destruct w; reflexivity.
  - rewrite (resized_embedded _ _ _ Em), Em in E2.
    eexists. split; [exact E2|].
    subst w1. destruct w; reflexivity.
Qed.

(** C7.  For a selection the setter lets through, over a live connection
    and an existing table: when the table has no profile column the drop
    statement raises a database error, and all the same the table ends up
    with a profile column as wide as the selection; when
    [vectorize_data] returns normally every row stores a vector of that
    length; and it does return normally when the selected names are
    columns of the table. *)
Theorem vectorize_data_width (column_list : string) (w : world)
        (h : handle) (t : Engine.table) :
  valid_selection column_list = true ->
  connection w = Some (Some h) ->
  database w = Some t ->
  let n := List.length (PyStr.split "," column_list) in
  (Engine.profile_width t = None ->
   Engine.drop_profile_column (database w) = Raise DatabaseError)
  /\ (exists t',
        database (snd (vectorize_data column_list w)) = Some t'
        /\ Engine.profile_width t' = Some n
        /\ (fst (vectorize_data column_list w) = Ok tt ->
            Forall (has_embedding n) (Engine.rows t')))
  /\ (forallb (fun item => PyStr.mem item table_columns)
              (PyStr.split "," column_list) = true ->
      fst (vectorize_data column_list w) = Ok tt).
Proof.
  intros V Hc Hd n. apply valid_selection_length in V.
  destruct (vectorize_data_effect column_list w h t V Hc Hd) as [j1 E1].
  rewrite E1. cbn [fst snd]. split; [|split].
  - intro W. rewrite Hd. unfold Engine.drop_profile_column. rewrite W.
    reflexivity.
  - destruct (embedded column_list (resized column_list t)) as [t'|e] eqn:Em.
    + destruct (embedded_rows column_list (resized column_list t) t' n
                              eq_refl Em) as [W' F].
      exists t'. split; [destruct w; reflexivity|].
      split; [exact W' | intros _; exact F].
    + exists (resized column_list t). split; [destruct w; reflexivity|].
      split; [reflexivity | discriminate].
  - intro H.
    destruct (embedded_completes column_list (resized column_list t) eq_refl H)
      as [t' ->].
    reflexivity.
Qed.

(** ** More on the setters *)

Lemma to_lower_idempotent (c : ascii) :
  PyStr.to_lower (PyStr.to_lower c) = PyStr.to_lower c.
Proof. destruct c as [[] [] [] [] [] [] [] []]; reflexivity. Qed.

Lemma lower_idempotent (s : string) : PyStr.lower (PyStr.lower s) = PyStr.lower s.
Proof.
  induction s as [|c s IH]; simpl; [reflexivity|].
  now rewrite to_lower_idempotent, IH.
Qed.

Lemma pair_eq {A B} (p : A * B) (a : A) (b : B) :
  fst p = a -> snd p = b -> p = (a, b).
Proof. destruct p; simpl; intros; subst; reflexivity. Qed.

(** X1.  [set_customer] lets a name written in ASCII through exactly when
    its title-cased form is one of the nine listed names, whatever the case
    it was typed in; either way the stored subject is the title-cased input
    and the rest of the world is as before. *)
Theorem set_customer_title_case (name : string) (w : world) :
  PyStr.isascii name = true ->
  set_customer name w
  = (if PyStr.mem (PyStr.title name) customer_names
     then Ok tt
     else Raise (Exception "Customer name must be one of Jessica, David, Matthew, Brandon, Joshua, Amanda, Lauren, James, Olivia"),
     with_customer_name (PyStr.title name) w).
Proof.
  intros _. unfold set_customer, bind, write, read.
  cbn [customer_name with_customer_name].
  rewrite title_idempotent.
  destruct (PyStr.mem _ _); reflexivity.
Qed.

(** X2.  [set_distance_metric] lets a name written in ASCII through
    exactly when its upper-cased form is one of the seven entries of its
    list (the six of the message and ["HAMMER"]); either way the stored
    metric is the upper-cased input and the rest of the world is as
    before. *)
Theorem set_distance_metric_upper_case (distance : string) (w : world) :
  PyStr.isascii distance = true ->
  set_distance_metric distance w
  = (if PyStr.mem (PyStr.upper distance) ("HAMMER" :: documented_metrics)
     then Ok tt
     else Raise (Exception "Distance must be one of CONSINE, EUCLIDEAN, EUCLIDEAN_SQUARE, MANHATTAN, JACCARD, DOT"),
     with_distance_metric (PyStr.upper distance) w).
Proof.
  intros _. unfold set_distance_metric, bind, write, read.
  cbn [distance_metric with_distance_metric].
  rewrite upper_idempotent.
  assert (E : PyStr.mem (PyStr.upper distance) distance_names
              = PyStr.mem (PyStr.upper distance) ("HAMMER" :: documented_metrics)).
  { unfold PyStr.mem, distance_names, documented_metrics. cbn [existsb].
    destruct (String.eqb _ "COSINE"), (String.eqb _ "EUCLIDEAN"),
      (String.eqb _ "EUCLIDEAN_SQUARED"), (String.eqb _ "HAMMER"),
      (String.eqb _ "MANHATTAN"), (String.eqb _ "JACCARD"),
      (String.eqb _ "DOT"); reflexivity. }
  rewrite <- E. destruct (PyStr.mem _ _); reflexivity.
Qed.

Lemma set_column_list_lower (columns : string) (w : world) :
  set_column_list (PyStr.lower columns) w = set_column_list columns w.
Proof. unfold set_column_list. rewrite lower_idempotent. reflexivity. Qed.

Lemma set_distance_metric_upper (distance : string) (w : world) :
  set_distance_metric (PyStr.upper distance) w = set_distance_metric distance w.
Proof. unfold set_distance_metric. rewrite upper_idempotent. reflexivity. Qed.

Lemma set_customer_title (name : string) (w : world) :
  set_customer (PyStr.title name) w = set_customer name w.
Proof. unfold set_customer. rewrite title_idempotent. reflexivity. Qed.

Lemma bind_cong {A B} (m m' : M A) (k k' : A -> M B) (w : world) :
  m w = m' w -> (forall a w1, k a w1 = k' a w1) -> bind m k w = bind m' k' w.
Proof.
  intros Hm Hk. unfold bind. rewrite Hm.
  destruct (m' w) as [[a|e] w1]; [apply Hk | reflexivity].
Qed.

(** X3.  The chart calls see their arguments only through the setters, so
    they are insensitive to case: each behaves exactly as on the
    lower-cased selection, the upper-cased metric and the title-cased
    subject. *)
Theorem charts_case_insensitive (columns cust_name distance : string)
        (w : world) :
  customers_chart columns distance w
  = customers_chart (PyStr.lower columns) (PyStr.upper distance) w
  /\ similarity_chart columns cust_name distance w
     = similarity_chart (PyStr.lower columns) (PyStr.title cust_name)
                        (PyStr.upper distance) w.
Proof.
  split.
  - unfold customers_chart.
    apply bind_cong; [symmetry; apply set_column_list_lower|]. intros _ w1.
    apply bind_cong; [symmetry; apply set_distance_metric_upper|].
    reflexivity.
  - unfold similarity_chart, similarity_chart_rows.
    apply bind_cong; [|reflexivity].
    apply bind_cong; [symmetry; apply set_column_list_lower|]. intros _ w1.
    apply bind_cong; [symmetry; apply set_distance_metric_upper|]. intros _ w2.
    apply bind_cong; [symmetry; apply set_customer_title|].
    reflexivity.
Qed.

(** ** Calls without a usable connection *)

(** X4.  [init] never raises.  When the listener lets the credentials in
    it binds [connection] to the session just opened; when the listener
    refuses it prints the failure line and binds [connection] to [None]. *)
Theorem init_binds (w : world) :
  init w
  = (Ok tt,
     if accepted
     then with_connection (Some (sessions w)) (with_sessions (S (sessions w)) w)
     else with_connection None
            (with_stdout (stdout w ++ ["Connection failed!"]) w)).
Proof.
  unfold init. rewrite bind_run, get_connection_world.
  destruct accepted; reflexivity.
Qed.

(** X5.  While [connection] is unbound ([init] has not run) every function
    that goes to the database raises [NameError] at its first
    [connection.cursor()], and while it is [None] (a refused [init])
    [AttributeError]; in both cases nothing is sent and the world is left
    exactly as it was. *)
Theorem database_functions_without_connection (w : world) (e : exn)
        (column_list name distance : string) (k : Z) :
  connection_error (connection w) = Some e ->
  create_schema w = (Raise e, w)
  /\ insert_data w = (Raise e, w)
  /\ vectorize_data column_list w = (Raise e, w)
  /\ get_customer_profiles w = (Raise e, w)
  /\ get_similiar_customer_profiles column_list name k distance w = (Raise e, w).
Proof.
  destruct w as [cl cn dm [[h|]|] d s j o pl]; simpl; intro H;
    inversion H; subst e; repeat split.
Qed.

Lemma set_column_list_run (columns : string) (w : world) :
  set_column_list columns w
  = (if valid_selection (PyStr.lower columns) then Ok tt
     else fst (set_column_list columns w),
     with_columns_list (PyStr.lower columns) w).
Proof.
  apply pair_eq; [|apply set_column_list_world].
  pose proof (set_column_list_result columns w) as R.
  destruct (valid_selection _); [exact R | reflexivity].
Qed.

Lemma set_distance_metric_run (distance : string) (w : world) :
  set_distance_metric distance w
  = (if PyStr.mem (PyStr.upper distance) distance_names then Ok tt
     else fst (set_distance_metric distance w),
     with_distance_metric (PyStr.upper distance) w).
Proof.
  apply pair_eq; [|apply set_distance_metric_world].
  pose proof (set_distance_metric_result distance w) as R.
  destruct (PyStr.mem _ _); [exact R | reflexivity].
Qed.

Lemma set_customer_run (name : string) (w : world) :
  set_customer name w
  = (if PyStr.mem (PyStr.title name) customer_names then Ok tt
     else fst (set_customer name w),
     with_customer_name (PyStr.title name) w).
Proof.
  apply pair_eq; [|apply set_customer_world].
  pose proof (set_customer_result name w) as R.
  destruct (PyStr.mem _ _); [exact R | reflexivity].
Qed.

Lemma create_schema_without_connection (w : world) (e : exn) :
  connection_error (connection w) = Some e -> create_schema w = (Raise e, w).
Proof.
  destruct w as [cl cn dm [[h|]|] d s j o pl]; simpl; intro H;
    inversion H; reflexivity.
Qed.

(** X6.  [similarity_chart] cannot stand in for [init]: with [connection]
    unbound (or [None]) and arguments the setters accept, it opens its own
    session when the listener is up, and then raises [NameError] (or
    [AttributeError]) at [create_schema], which reads the module variable;
    nothing has been sent and the schema is as before. *)
Theorem similarity_chart_without_init (columns cust_name distance : string)
        (w : world) (e : exn) :
  connection_error (connection w) = Some e ->
  setters_accept columns cust_name distance = true ->
  let w' := snd (similarity_chart columns cust_name distance w) in
  fst (similarity_chart columns cust_name distance w) = Raise e
  /\ journal w' = journal w
  /\ database w' = database w
  /\ connection w' = connection w
  /\ sessions w' = if accepted then S (sessions w) else sessions w.
Proof.
  intros He Hs. unfold setters_accept in Hs.
  apply andb_prop in Hs. destruct Hs as [Hs Hn].
  apply andb_prop in Hs. destruct Hs as [Hc Hd].
  cbv zeta. unfold similarity_chart, similarity_chart_rows.
  rewrite bind_run, bind_run, set_column_list_run, Hc.
  rewrite bind_run, set_distance_metric_run, Hd.
  rewrite bind_run, set_customer_run, Hn.
  rewrite bind_run, get_connection_world.
  destruct w as [cl cn dm c d s j o pl]. cbn in He.
  destruct accepted;
    cbn [with_columns_list with_distance_metric with_customer_name with_sessions
         with_stdout columns_list customer_name distance_metric connection
         database sessions journal stdout];
    rewrite bind_run;
    match goal with
    | |- context [create_schema ?x] =>
        rewrite (create_schema_without_connection x e He)
    end; cbn; repeat split.
Qed.

(** X7.  Both chart calls validate before they do anything else: for
    arguments written in ASCII, when a setter refuses its argument the call
    raises the validation error without having opened a session, sent a
    statement, printed a line, drawn anything or touched the schema or the
    connection. *)
Theorem charts_validate_first (columns cust_name distance : string) (w : world) :
  PyStr.isascii columns = true ->
  PyStr.isascii cust_name = true ->
  PyStr.isascii distance = true ->
  (setters_accept columns cust_name distance = false ->
   (exists message,
       fst (similarity_chart columns cust_name distance w)
       = Raise (Exception message))
   /\ untouched w (snd (similarity_chart columns cust_name distance w)))
  /\ ((valid_selection (PyStr.lower columns)
       && PyStr.mem (PyStr.upper distance) distance_names)%bool = false ->
      (exists message,
          fst (customers_chart columns distance w) = Raise (Exception message))
      /\ untouched w (snd (customers_chart columns distance w))).
Proof.
  intros _ _ _.
  pose proof (set_column_list_result columns w) as Rc.
  split; intro H.
  - unfold setters_accept in H.
    unfold similarity_chart, similarity_chart_rows.
    rewrite bind_run, bind_run, set_column_list_run.
    destruct (valid_selection (PyStr.lower columns)).
    + set (w1 := with_columns_list (PyStr.lower columns) w).
      pose proof (set_distance_metric_result distance w1) as Rd.
      rewrite bind_run, set_distance_metric_run.
      destruct (PyStr.mem (PyStr.upper distance) distance_names).
      * set (w2 := with_distance_metric (PyStr.upper distance) w1).
        pose proof (set_customer_result cust_name w2) as Rn.
        rewrite bind_run, set_customer_run.
        destruct (PyStr.mem (PyStr.title cust_name) customer_names);
          [discriminate H|].
        destruct Rn as [message ->]. cbn [fst snd].
        split; [eauto | destruct w; repeat split].
      * destruct Rd as [message ->]. cbn [fst snd].
        split; [eauto | destruct w; repeat split].
    + destruct Rc as [message ->]. cbn [fst snd].
      split; [eauto | destruct w; repeat split].
  - unfold customers_chart.
    rewrite bind_run, set_column_list_run.
    destruct (valid_selection (PyStr.lower columns)).
    + set (w1 := with_columns_list (PyStr.lower columns) w).
      pose proof (set_distance_metric_result distance w1) as Rd.
      rewrite bind_run, set_distance_metric_run.
      destruct (PyStr.mem (PyStr.upper distance) distance_names);
        [discriminate H|].
      destruct Rd as [message ->]. cbn [fst snd].
      split; [eauto | destruct w; repeat split].
    + destruct Rc as [message ->]. cbn [fst snd].
      split; [eauto | destruct w; repeat split].
Qed.

(** ** Rebuilding and seeding, whatever was there *)

(** X8.  Over a live connection [create_schema] discards whatever table
    there was: afterwards the table is the ten seed rows with ids 1 to 10
    and no profile column, and a second call leaves the very same table. *)
Theorem create_schema_resets (w : world) (h : handle) :
  connection w = Some (Some h) ->
  fst (create_schema w) = Ok tt
  /\ database (snd (create_schema w)) = Some seed_table
  /\ map Engine.id (Engine.rows seed_table) = [1; 2; 3; 4; 5; 6; 7; 8; 9; 10]
  /\ Engine.profile_width seed_table = None
  /\ Forall (fun r => Engine.profile r = None) (Engine.rows seed_table)
  /\ fst (create_schema (snd (create_schema w))) = Ok tt
  /\ database (snd (create_schema (snd (create_schema w)))) = Some seed_table.
Proof.
  intro H.
  destruct (create_schema_seeds w h H) as [R [C D]].
  destruct (create_schema_seeds (snd (create_schema w)) h C) as [R' [_ D']].
  repeat split; try assumption.
  repeat (apply Forall_cons; [reflexivity|]). apply Forall_nil.
Qed.

(** X9.  [insert_data] checks nothing about what is already there: over a
    live connection and an existing table it appends the ten seed rows
    after the rows present, under the next ten generated ids and with a
    null profile, so a second call doubles the seed rows; without a table
    it raises a database error. *)
Theorem insert_data_appends (w : world) (h : handle) :
  connection w = Some (Some h) ->
  match database w with
  | None => fst (insert_data w) = Raise DatabaseError
  | Some t =>
      fst (insert_data w) = Ok tt
      /\ exists added,
          database (snd (insert_data w))
          = Some (Engine.mkTable (Engine.identity t + 10)
                                 (Engine.profile_width t)
                                 (Engine.rows t ++ added))
          /\ map (fun r => (Engine.name r, Engine.age r, Engine.income r)) added
             = data_to_insert
          /\ map Engine.id added
             = map (Z.add (Engine.identity t)) [0; 1; 2; 3; 4; 5; 6; 7; 8; 9]
          /\ Forall (fun r => Engine.profile r = None) added
  end.
Proof.
  destruct w as [cl cn dm c d s j o pl]. simpl. intro H. subst c.
  destruct d as [[idn pw rs]|]; [|reflexivity].
  split; [reflexivity|].
  exists (map (fun p : Z * (string * Z * Z) =>
                 let '(i, (n, a, inc)) := p in
                 Engine.mkCustomer (idn + i) n a inc None)
              (combine [0; 1; 2; 3; 4; 5; 6; 7; 8; 9] data_to_insert)).
  split; [|split; [reflexivity|split; [reflexivity|]]].
  - cbn. repeat rewrite <- app_assoc. cbn.
    replace (idn + 0) with idn by lia.
    replace (idn + 1 + 1) with (idn + 2) by lia.
    replace (idn + 2 + 1) with (idn + 3) by lia.
    replace (idn + 3 + 1) with (idn + 4) by lia.
    replace (idn + 4 + 1) with (idn + 5) by lia.
    replace (idn + 5 + 1) with (idn + 6) by lia.
    replace (idn + 6 + 1) with (idn + 7) by lia.
    replace (idn + 7 + 1) with (idn + 8) by lia.
    replace (idn + 8 + 1) with (idn + 9) by lia.
    replace (idn + 9 + 1) with (idn + 10) by lia.
    reflexivity.
  - cbn. repeat (apply Forall_cons; [reflexivity|]). apply Forall_nil.
Qed.

(** ** The embedding builder on any table and any number of columns *)

Lemma split_length (sep : ascii) (s : string) :
  (1 <= List.length (PyStr.split sep s))%nat.
Proof.
  induction s as [|c s IH]; simpl; [lia|].
  destruct (Ascii.eqb c sep); simpl; [lia|].
  destruct (PyStr.split sep s); simpl; lia.
Qed.

Lemma add_profile_column_ok (n : nat) (t : Engine.table) :
  Engine.profile_width t = None ->
  (1 <= n)%nat -> Z.of_nat n <= Engine.max_dimensions ->
  Engine.add_profile_column n (Some t)
  = Ok (tt, Some (Engine.mkTable (Engine.identity t) (Some n)
                                 (map Engine.clear_profile (Engine.rows t)))).
Proof.
  intros W L U. unfold Engine.add_profile_column. rewrite W.
  destruct (Z.leb_spec 1 (Z.of_nat n)); [|lia].
  destruct (Z.leb_spec (Z.of_nat n) Engine.max_dimensions); [|lia].
  reflexivity.
Qed.

Lemma add_remove_vector_column_effect_any (column_list : string) (w : world)
      (h : handle) (t : Engine.table) :
  width_ok column_list ->
  connection w = Some (Some h) ->
  database w = Some t ->
  exists j',
    add_remove_vector_column column_list w
    = (Ok tt, with_journal j' (with_database (Some (resized column_list t)) w)).
Proof.
  intros Hn Hc Hd. unfold width_ok in Hn.
  pose proof (split_length "," column_list) as L.
  destruct w as [cl cn dm c d s j o pl]. simpl in Hc, Hd. subst c d.
  destruct t as [idn pw rs].
  unfold add_remove_vector_column, resized. cbv zeta.
  set (n := List.length (PyStr.split "," column_list)) in *.
  set (add_text := "alter table customer add profile vector(" ++ PyStr.str_of_nat n
                     ++ ", float32)").
  rewrite bind_run. cbn [connection_cursor connection].
  unfold try_except. rewrite bind_run. unfold cursor_execute at 1.
  cbn [database journal]. unfold Engine.drop_profile_column.
  cbn [Engine.profile_width Engine.identity Engine.rows].
  destruct pw as [k|].
  - unfold cursor_execute.
    cbn [with_journal with_database columns_list customer_name distance_metric
         connection database sessions journal stdout].
    rewrite add_profile_column_ok; [|reflexivity|exact L|exact Hn].
    cbn [Engine.identity Engine.rows]. rewrite clear_profile_idempotent.
    eexists. reflexivity.
  - cbn [except_DatabaseError]. unfold cursor_execute.
    cbn [with_journal with_database columns_list customer_name distance_metric
         connection database sessions journal stdout].
    rewrite add_profile_column_ok; [|reflexivity|exact L|exact Hn].
    cbn [Engine.identity Engine.rows].
    eexists. reflexivity.
Qed.

Lemma vectorize_data_effect_any (column_list : string) (w : world)
      (h : handle) (t : Engine.table) :
  width_ok column_list ->
  connection w = Some (Some h) ->
  database w = Some t ->
  exists j',
    vectorize_data column_list w
    = (match embedded column_list (resized column_list t) with
       | Ok _ => Ok tt
       | Raise e => Raise e
       end,
       with_journal j'
         (with_database
            (Some match embedded column_list (resized column_list t) with
                  | Ok t' => t'
                  | Raise _ => resized column_list t
                  end) w)).
Proof.
  intros Hn Hc Hd.
  rewrite vectorize_data_halves, bind_run.
  destruct (add_remove_vector_column_effect_any column_list w h t Hn Hc Hd)
    as [j1 E1].
  rewrite E1.
  destruct (vectorize_rows_effect column_list
              (with_journal j1
                 (with_database (Some (resized column_list t)) w))
              h (resized column_list t)) as [j2 E2].
  - destruct w; exact Hc.
  - destruct w; reflexivity.
  - rewrite E2. exists j2. destruct w; reflexivity.
Qed.

(** X10.  Over a live connection and an existing table, and whether it
    returns or raises, [vectorize_data] changes nothing in the table but
    the profile column: the rows are the same in number and order, each
    with the id, name, age and income it had, and the next generated id is
    the same. *)
Theorem vectorize_data_keeps_columns (column_list : string) (w : world)
        (h : handle) (t : Engine.table) :
  width_ok column_list ->
  connection w = Some (Some h) ->
  database w = Some t ->
  exists t',
    database (snd (vectorize_data column_list w)) = Some t'
    /\ Engine.identity t' = Engine.identity t
    /\ map Engine.clear_profile (Engine.rows t')
       = map Engine.clear_profile (Engine.rows t)
    /\ List.length (Engine.rows t') = List.length (Engine.rows t).
Proof.
  intros Hn Hc Hd.
  destruct (vectorize_data_effect_any column_list w h t Hn Hc Hd) as [j1 E1].
  rewrite E1. cbn [snd].
  assert (K : forall t', map Engine.clear_profile (Engine.rows t')
                         = map Engine.clear_profile (Engine.rows t) ->
                         List.length (Engine.rows t') = List.length (Engine.rows t)).
  { intros t' E. rewrite <- (length_map Engine.clear_profile (Engine.rows t')), E.
    apply length_map. }
  destruct (embedded column_list (resized column_list t)) as [t'|e] eqn:Em.
  - exists t'. split; [destruct w; reflexivity|].
    apply embedded_shape in Em.
    destruct Em as [n [fs [binds [_ [_ [_ [_ ->]]]]]]].
    cbn [Engine.identity Engine.rows resized].
    assert (E : map Engine.clear_profile
                    (fold_left (fun rs b => map (Engine.update_row b) rs) binds
                               (map Engine.clear_profile (Engine.rows t)))
                = map Engine.clear_profile (Engine.rows t))
      by (rewrite clear_after_updates; apply clear_profile_idempotent).
    split; [reflexivity|]. split; [exact E|].
    apply (K (Engine.mkTable (Engine.identity t) (Some n)
                (fold_left (fun rs b => map (Engine.update_row b) rs) binds
                           (map Engine.clear_profile (Engine.rows t))))).
    exact E.
  - exists (resized column_list t). split; [destruct w; reflexivity|].
    split; [reflexivity|].
    assert (E : map Engine.clear_profile (Engine.rows (resized column_list t))
                = map Engine.clear_profile (Engine.rows t))
      by apply clear_profile_idempotent.
    split; [exact E | exact (K _ E)].
Qed.

Lemma updates_per_row (binds : list (Engine.vector * Z))
      (rs : list Engine.customer) :
  fold_left (fun rs b => map (Engine.update_row b) rs) binds rs
  = map (fun r => fold_left (fun r b => Engine.update_row b r) binds r) rs.
Proof.
  revert rs. induction binds as [|b binds IH]; intro rs; simpl.
  - symmetry. apply map_id.
  - rewrite IH, map_map. reflexivity.
Qed.

Lemma update_own_row (v : Engine.customer -> Engine.vector) (x : Engine.vector)
      (l : list Engine.customer) :
  forall r,
    (forall r', In r' l -> Engine.id r' = Engine.id r -> v r' = x) ->
    fold_left (fun r b => Engine.update_row b r)
              (map (fun r' => (v r', Engine.id r')) l) r
    = if existsb (fun r' => Engine.id r' =? Engine.id r) l
      then Engine.set_profile x r else r.
Proof.
  induction l as [|a l IH]; intros r H; [reflexivity|].
  cbn [map fold_left existsb]. unfold Engine.update_row at 2. cbn [fst snd].
  rewrite (Z.eqb_sym (Engine.id a) (Engine.id r)).
  destruct (Z.eqb_spec (Engine.id r) (Engine.id a)) as [E|E].
  - rewrite (H a (or_introl eq_refl) (eq_sym E)). cbn [orb].
    rewrite IH.
    + destruct (existsb _ l); reflexivity.
    + intros r' Hr' Hid. apply H; [right; exact Hr' | exact Hid].
  - cbn [orb]. apply IH.
    intros r' Hr' Hid. apply H; [right; exact Hr' | exact Hid].
Qed.

Lemma NoDup_map_eq {A B} (f : A -> B) (l : list A) (a b : A) :
  NoDup (map f l) -> In a l -> In b l -> f a = f b -> a = b.
Proof.
  induction l as [|x l IH]; intros N Ha Hb E; [contradiction|].
  simpl in N. inversion N as [|? ? Nx Nl]; subst.
  destruct Ha as [->|Ha], Hb as [->|Hb].
  - reflexivity.
  - exfalso. apply Nx. rewrite E. apply in_map. exact Hb.
  - exfalso. apply Nx. rewrite <- E. apply in_map. exact Ha.
  - apply IH; assumption.
Qed.

Lemma updates_own (v : Engine.customer -> Engine.vector)
      (rs : list Engine.customer) :
  NoDup (map Engine.id rs) ->
  fold_left (fun rs b => map (Engine.update_row b) rs)
            (map (fun r => (v r, Engine.id r)) rs)
            (map Engine.clear_profile rs)
  = map (fun r => Engine.set_profile (v r) r) rs.
Proof.
  intro N. rewrite updates_per_row, map_map. apply map_ext_in. intros r Hr.
  rewrite (update_own_row v (v r)).
  - assert (E : existsb (fun r' => Engine.id r' =? Engine.id (Engine.clear_profile r))
                        rs = true).
    { apply existsb_exists. exists r. split; [exact Hr | apply Z.eqb_refl]. }
    rewrite E. reflexivity.
  - intros r' Hr' Hid. f_equal.
    exact (NoDup_map_eq Engine.id rs r' r N Hr' Hr Hid).
Qed.

Lemma columns_numbers (t : Engine.table) (items : list string) :
  forallb (fun item => PyStr.mem item table_columns) items = true ->
  Engine.columns t items
  = Some (map (fun g (r : Engine.customer) => Engine.VInt (g r))
              (map column_number items)).
Proof.
  induction items as [|item items IH]; intro H; cbn [forallb] in H.
  - reflexivity.
  - apply andb_prop in H. destruct H as [Hi H].
    apply mem_In in Hi. unfold table_columns in Hi. simpl in Hi.
    cbn [Engine.columns]. rewrite (IH H).
    destruct Hi as [<-|[<-|[]]]; reflexivity.
Qed.

Lemma embedded_own_columns (column_list : string) (t : Engine.table) :
  forallb (fun item => PyStr.mem item table_columns)
          (PyStr.split "," column_list) = true ->
  NoDup (map Engine.id (Engine.rows t)) ->
  embedded column_list (resized column_list t)
  = Ok (Engine.mkTable
          (Engine.identity t) (Some (List.length (PyStr.split "," column_list)))
          (map (fun r =>
                  Engine.set_profile
                    (map (fun item => Float32.of_int (column_number item r))
                         (PyStr.split "," column_list)) r)
               (Engine.rows t))).
Proof.
  intros Hi N. set (items := PyStr.split "," column_list) in *.
  unfold embedded, Engine.select_id_and.
  rewrite (columns_numbers _ _ Hi), binds_of_numeric.
  unfold Engine.update_profile, resized.
  cbn [Engine.profile_width Engine.rows Engine.identity].
  match goal with
  | |- context [forallb ?f ?l] => assert (F : forallb f l = true)
  end.
  { apply forallb_forall. intros b Hb.
    apply in_map_iff in Hb. destruct Hb as [r [<- _]]. cbn [fst].
    rewrite !length_map. apply Nat.eqb_refl. }
  rewrite F. do 3 f_equal.
  match goal with
  | |- fold_left _ ?b _ = _ =>
      replace b
        with (map (fun r =>
                     (map (fun item => Float32.of_int (column_number item r))
                          items,
                      Engine.id r))
                  (Engine.rows t))
  end.
  - apply updates_own. exact N.
  - rewrite map_map. apply map_ext. intro r. cbn [Engine.id Engine.clear_profile].
    f_equal. rewrite map_map. apply map_ext. intro item. reflexivity.
Qed.

Lemma own_columns_exact (items : list string) (rs : list Engine.customer) :
  Forall (fun r => Z.abs (Engine.age r) < 2 ^ 24
                   /\ Z.abs (Engine.income r) < 2 ^ 24) rs ->
  map (fun r => Engine.set_profile
                  (map (fun item => Float32.of_int (column_number item r)) items) r)
      rs
  = map (fun r => Engine.set_profile
                    (map (fun item => column_number item r) items) r) rs.
Proof.
  intro B. apply map_ext_in. intros r Hr. f_equal.
  rewrite Forall_forall in B. destruct (B r Hr) as [Ba Bi].
  apply map_ext. intro item. unfold column_number.
  destruct (String.eqb item "age"); apply of_int_exact; assumption.
Qed.

(** X11.  On a table whose ids are all different and whose ages and
    incomes have at most 38 digits, and for any list of the columns
    [age] and [income] (one, two or more, in any order), [vectorize_data]
    returns normally and gives every row the single-precision values of
    its own columns, in the order listed; the profile column is as wide as
    the list, and no stored number is beyond the single-precision range.
    When every age and income is below 2^24 in magnitude the stored numbers
    are the column values themselves. *)
Theorem vectorize_data_stores_own_columns (column_list : string) (w : world)
        (h : handle) (t : Engine.table) :
  width_ok column_list ->
  connection w = Some (Some h) ->
  database w = Some t ->
  forallb (fun item => PyStr.mem item table_columns)
          (PyStr.split "," column_list) = true ->
  NoDup (map Engine.id (Engine.rows t)) ->
  numbers_38 t ->
  let items := PyStr.split "," column_list in
  fst (vectorize_data column_list w) = Ok tt
  /\ database (snd (vectorize_data column_list w))
     = Some (Engine.mkTable
               (Engine.identity t) (Some (List.length items))
               (map (fun r =>
                       Engine.set_profile
                         (map (fun item => Float32.of_int (column_number item r))
                              items) r)
                    (Engine.rows t)))
  /\ (forall r item,
         In r (Engine.rows t) ->
         Z.abs (Float32.of_int (column_number item r)) <= Float32.max)
  /\ (Forall (fun r => Z.abs (Engine.age r) < 2 ^ 24
                       /\ Z.abs (Engine.income r) < 2 ^ 24) (Engine.rows t) ->
      database (snd (vectorize_data column_list w))
      = Some (Engine.mkTable
                (Engine.identity t) (Some (List.length items))
                (map (fun r =>
                        Engine.set_profile
                          (map (fun item => column_number item r) items) r)
                     (Engine.rows t)))).
Proof.
  intros Hn Hc Hd Hi N Hr items.
  destruct (vectorize_data_effect_any column_list w h t Hn Hc Hd) as [j1 E1].
  pose proof (embedded_own_columns column_list t Hi N) as Em.
  fold items in Em.
  rewrite E1, Em. cbn [fst snd].
  split; [reflexivity|]. split; [destruct w; reflexivity|]. split.
  - intros r item Hin. unfold numbers_38 in Hr. rewrite Forall_forall in Hr.
    destruct (Hr r Hin) as [Ra Ri]. unfold column_number.
    destruct (String.eqb item "age"); apply of_int_in_range; assumption.
  - intro B. destruct w; cbn [database with_journal with_database].
    do 2 f_equal.
    apply map_ext_in. intros r Hin. f_equal.
    rewrite Forall_forall in B. destruct (B r Hin) as [Ba Bi].
    apply map_ext. intro item. unfold column_number.
    destruct (String.eqb item "age"); apply of_int_exact; assumption.
Qed.

Lemma columns_unknown (t : Engine.table) (items : list string) :
  existsb (fun item => negb (PyStr.mem item all_columns)) items = true ->
  Engine.columns t items = None.
Proof.
  induction items as [|item items IH]; intro H; cbn [existsb] in H;
    [discriminate|].
  cbn [Engine.columns].
  destruct (PyStr.mem item all_columns) eqn:M; cbn [negb orb] in H.
  - rewrite (IH H). destruct (Engine.column t item); reflexivity.
  - assert (E : Engine.column t item = None).
    { unfold PyStr.mem, all_columns in M. cbn [existsb] in M.
      unfold Engine.column.
      destruct (String.eqb item "id"); [discriminate|].
      destruct (String.eqb item "name"); [discriminate|].
      destruct (String.eqb item "age"); [discriminate|].
      destruct (String.eqb item "income"); [discriminate|].
      destruct (String.eqb item "profile"); [discriminate|].
      reflexivity. }
    rewrite E. reflexivity.
Qed.

Lemma vectorize_data_unknown_run (column_list : string) (w : world)
      (h : handle) (t : Engine.table) :
  width_ok column_list ->
  connection w = Some (Some h) ->
  database w = Some t ->
  existsb (fun item => negb (PyStr.mem item all_columns))
          (PyStr.split "," column_list) = true ->
  exists w',
    vectorize_data column_list w = (Raise DatabaseError, w')
    /\ database w' = Some (resized column_list t).
Proof.
  intros Hn Hc Hd Hu.
  destruct (vectorize_data_effect_any column_list w h t Hn Hc Hd) as [j1 E1].
  assert (Em : embedded column_list (resized column_list t) = Raise DatabaseError).
  { unfold embedded, Engine.select_id_and.
    rewrite (columns_unknown _ _ Hu). reflexivity. }
  rewrite Em in E1. eexists. split; [exact E1 | destruct w; reflexivity].
Qed.

Lemma allow_listed_unknown (items : list string) :
  forallb (fun item => PyStr.mem item column_names) items = true ->
  forallb (fun item => PyStr.mem item table_columns) items = false ->
  existsb (fun item => negb (PyStr.mem item all_columns)) items = true.
Proof.
  induction items as [|item items IH]; intros Ha Ht; cbn [forallb] in Ha, Ht;
    [discriminate Ht|].
  apply andb_prop in Ha. destruct Ha as [Hi Ha].
  cbn [existsb]. apply mem_In in Hi. unfold column_names in Hi. simpl in Hi.
  destruct Hi as [<-|[<-|[<-|[<-|[<-|[]]]]]];
    first [ reflexivity
          | change (forallb (fun item => PyStr.mem item table_columns) items
                    = false) in Ht;
            rewrite (IH Ha Ht); apply orb_true_r ].
Qed.

(** X12.  When every item of the list is one of the five names the setter
    allows and one of them is no column of the table ([is_single],
    [no_children] or [no_cars]), [vectorize_data] raises a database error at
    its select, after the resize: the table is left with a profile column
    of the width asked for and a null profile in every row. *)
Theorem vectorize_data_unknown_column (column_list : string) (w : world)
        (h : handle) (t : Engine.table) :
  width_ok column_list ->
  connection w = Some (Some h) ->
  database w = Some t ->
  forallb (fun item => PyStr.mem item column_names)
          (PyStr.split "," column_list) = true ->
  forallb (fun item => PyStr.mem item table_columns)
          (PyStr.split "," column_list) = false ->
  fst (vectorize_data column_list w) = Raise DatabaseError
  /\ database (snd (vectorize_data column_list w))
     = Some (Engine.mkTable (Engine.identity t)
               (Some (List.length (PyStr.split "," column_list)))
               (map Engine.clear_profile (Engine.rows t))).
Proof.
  intros Hn Hc Hd Ha Ht.
  destruct (vectorize_data_unknown_run column_list w h t Hn Hc Hd
              (allow_listed_unknown _ Ha Ht))
    as [w' [E D]].
  rewrite E. cbn [fst snd].
  split; [reflexivity | exact D].
Qed.

(** ** The similarity query on any table *)

(** X13.  Asked for a name no row carries (the match is exact, so also a
    seeded name in another case), [get_similiar_customer_profiles] raises
    [TypeError] when it subscripts the missing row: only the first select
    has been sent and the schema is as before. *)
Theorem get_similiar_unknown_name (column_list name distance : string) (k : Z)
        (w : world) (h : handle) (t : Engine.table) :
  connection w = Some (Some h) ->
  database w = Some t ->
  Engine.profile_width t <> None ->
  subject_row name t = None ->
  get_similiar_customer_profiles column_list name k distance w
  = (Raise TypeError,
     with_journal (journal w ++ [(h, select_profile_sql)]) w).
Proof.
  intros Hc Hd Hw Hs.
  destruct w as [cl cn dm c d s j o pl]. simpl in Hc, Hd. subst c d.
  unfold get_similiar_customer_profiles. cbv zeta.
  rewrite bind_run. cbn [connection_cursor connection].
  rewrite bind_run. unfold cursor_execute at 1. cbn [database journal].
  unfold Engine.select_profile_by_name.
  destruct (Engine.profile_width t); [|congruence].
  unfold subject_row in Hs.
  destruct (filter (fun r => String.eqb (Engine.name r) name) (Engine.rows t))
    as [|r0 rest]; [|discriminate Hs].
  reflexivity.
Qed.

Lemma In_insert_sorted {A} (le : A -> A -> bool) (x y : A) (l : list A) :
  In y (Engine.insert_sorted le x l) <-> y = x \/ In y l.
Proof.
  induction l as [|z l IH]; simpl.
  - intuition.
  - destruct (le x z); simpl; [intuition|].
    rewrite IH. intuition.
Qed.

Lemma In_sort {A} (le : A -> A -> bool) (y : A) (l : list A) :
  In y (Engine.sort le l) <-> In y l.
Proof.
  induction l as [|x l IH]; simpl; [tauto|].
  rewrite In_insert_sorted, IH. intuition.
Qed.

Lemma length_insert_sorted {A} (le : A -> A -> bool) (x : A) (l : list A) :
  List.length (Engine.insert_sorted le x l) = S (List.length l).
Proof.
  induction l as [|z l IH]; simpl; [reflexivity|].
  destruct (le x z); simpl; [reflexivity | now rewrite IH].
Qed.

Lemma length_sort {A} (le : A -> A -> bool) (l : list A) :
  List.length (Engine.sort le l) = List.length l.
Proof.
  induction l as [|x l IH]; simpl; [reflexivity|].
  now rewrite length_insert_sorted, IH.
Qed.

Lemma squared_distance_nonneg (a b : Engine.vector) :
  0 <= Engine.squared_distance a b.
Proof.
  unfold Engine.squared_distance.
  induction (combine a b) as [|xy l IH]; cbn [fold_right]; [lia|].
  apply Z.add_nonneg_nonneg; [apply Z.square_nonneg | exact IH].
Qed.

Lemma squared_distance_self (q : Engine.vector) : Engine.squared_distance q q = 0.
Proof.
  unfold Engine.squared_distance.
  induction q as [|x q IH]; simpl; [reflexivity|].
  rewrite IH. lia.
Qed.

Lemma metric_ordering_euclidean (distance : string) :
  PyStr.upper distance = "EUCLIDEAN" ->
  metric_ordering distance = Some (Engine.by_rank Engine.squared_distance).
Proof. intro H. unfold metric_ordering. rewrite H. reflexivity. Qed.

(** X14.  On any table in which every row carries a vector and some row
    carries [name], the Euclidean query of
    [get_similiar_customer_profiles] returns [min k n] of the [n] rows of
    the table, each with its vector, in non-decreasing Euclidean distance
    to the vector of the first row named [name]; the row it returns first
    lies at distance zero, and the schema is as before. *)
Theorem get_similiar_euclidean (column_list name distance : string) (k : Z)
        (w : world) (h : handle) (t : Engine.table)
        (r0 : Engine.customer) (q : Engine.vector) :
  connection w = Some (Some h) ->
  database w = Some t ->
  Engine.profile_width t <> None ->
  Forall (fun r => Engine.profile r <> None) (Engine.rows t) ->
  subject_row name t = Some r0 ->
  Engine.profile r0 = Some q ->
  PyStr.upper distance = "EUCLIDEAN" ->
  exists answer vs,
    fst (get_similiar_customer_profiles column_list name k distance w) = Ok answer
    /\ database (snd (get_similiar_customer_profiles column_list name k distance w))
       = Some t
    /\ List.length answer = Nat.min (Z.to_nat k) (List.length (Engine.rows t))
    /\ (forall p, In p answer ->
                  exists r, In r (Engine.rows t)
                            /\ p = (Engine.name r, Engine.profile r))
    /\ map snd answer = map Some vs
    /\ StronglySorted Rle (map (fun v => Engine.euclidean_distance v q) vs)
    /\ (forall v, hd_error vs = Some v -> Engine.euclidean_distance v q = 0%R).
Proof.
  clear getenv oracledb_connect.
  intros Hc Hd Hw Hp Hs Hq Hm.
  set (le := fun r1 r2 : Engine.customer =>
               Engine.nulls_last (Engine.by_rank Engine.squared_distance)
                                 (Some q) (Engine.profile r1) (Engine.profile r2)).
  set (ordered := Engine.sort le (Engine.rows t)).
  set (chosen := firstn (Z.to_nat k) ordered).
  assert (le_total : forall a b, le a b = true \/ le b a = true).
  { intros a b. unfold le, Engine.nulls_last, Engine.by_rank.
    destruct (Engine.profile a), (Engine.profile b); auto.
    rewrite !Z.leb_le. lia. }
  assert (le_trans : forall a b c, le a b = true -> le b c = true -> le a c = true).
  { intros a b c. unfold le, Engine.nulls_last, Engine.by_rank.
    destruct (Engine.profile a), (Engine.profile b), (Engine.profile c);
      auto; try discriminate.
    rewrite !Z.leb_le. lia. }
  assert (So : StronglySorted (fun a b => le a b = true) ordered)
    by (apply sort_sorted; assumption).
  assert (Sc : StronglySorted (fun a b => le a b = true) chosen)
    by (apply StronglySorted_firstn; exact So).
  assert (Ic : forall r, In r chosen -> In r (Engine.rows t)).
  { intros r Hr. apply firstn_incl in Hr. apply In_sort in Hr. exact Hr. }
  assert (Pc : forall r, In r chosen -> Engine.profile r <> None).
  { intros r Hr. rewrite Forall_forall in Hp. apply Hp, Ic, Hr. }
  assert (I0 : In r0 ordered).
  { apply In_sort. unfold subject_row in Hs.
    destruct (filter (fun r => String.eqb (Engine.name r) name) (Engine.rows t))
      as [|x rest] eqn:F; [discriminate|].
    injection Hs as Hx; subst x.
    assert (In r0 (r0 :: rest)) as Hin by (left; reflexivity).
    rewrite <- F in Hin. apply filter_In in Hin. tauto. }
  exists (map (fun r => (Engine.name r, Engine.profile r)) chosen).
  exists (map (fun r => match Engine.profile r with
                        | Some v => v
                        | None => []
                        end) chosen).
  assert (E : get_similiar_customer_profiles column_list name k distance w
              = (Ok (map (fun r => (Engine.name r, Engine.profile r)) chosen),
                 with_journal
                   (journal w
                    ++ [(h, select_profile_sql);
                        (h, "select name, profile from customer order by vector_distance(profile, :1, "
                              ++ distance ++ ") fetch first :2 rows only")])
                   w)).
  { destruct w as [cl cn dm c d s j o pl]. simpl in Hc, Hd. subst c d.
    unfold get_similiar_customer_profiles. cbv zeta.
    rewrite bind_run. cbn [connection_cursor connection].
    rewrite bind_run. unfold cursor_execute at 1. cbn [database journal].
    unfold Engine.select_profile_by_name.
    destruct (Engine.profile_width t) eqn:W; [|congruence].
    unfold subject_row in Hs.
    destruct (filter (fun r => String.eqb (Engine.name r) name) (Engine.rows t))
      as [|x rest]; [discriminate|].
    injection Hs as Hx; subst x. cbn [map hd_error]. rewrite Hq.
    unfold cursor_execute.
    cbn [with_journal with_database columns_list customer_name distance_metric
         connection database sessions journal stdout].
    unfold select_nearest. rewrite W, (metric_ordering_euclidean _ Hm).
    cbv beta iota zeta. fold le. fold ordered. rewrite firstn_map.
    fold chosen. rewrite <- app_assoc. reflexivity. }
  rewrite E. cbn [fst snd].
  split; [reflexivity|]. split; [destruct w; exact Hd|].
  split; [|split; [|split; [|split]]].
  - rewrite length_map. unfold chosen, ordered.
    rewrite length_firstn, length_sort. reflexivity.
  - intros p Hin. apply in_map_iff in Hin. destruct Hin as [r [<- Hr]].
    exists r. split; [apply Ic; exact Hr | reflexivity].
  - rewrite !map_map. apply map_ext_in. intros r Hr. simpl.
    specialize (Pc r Hr). destruct (Engine.profile r); congruence.
  - rewrite map_map.
    apply StronglySorted_map with (R := fun a b => le a b = true); [|exact Sc].
    intros a b Ha Hb.
    pose proof (Pc a Ha) as Pa. pose proof (Pc b Hb) as Pb.
    unfold le, Engine.nulls_last, Engine.by_rank.
    destruct (Engine.profile a), (Engine.profile b); try congruence.
    intro L. apply Z.leb_le in L. apply euclidean_distance_le. exact L.
  - intros v Hv. unfold chosen in Hv.
    destruct (Z.to_nat k) as [|k']; [discriminate Hv|].
    destruct ordered as [|first others] eqn:O; [discriminate Hv|].
    cbn [firstn map hd_error] in Hv.
    assert (Hf : le first r0 = true).
    { apply StronglySorted_inv in So. destruct So as [_ Fo].
      destruct I0 as [<-|I0].
      - destruct (le_total first first); assumption.
      - rewrite Forall_forall in Fo. apply Fo. exact I0. }
    assert (Pf : Engine.profile first <> None).
    { rewrite Forall_forall in Hp. apply Hp. apply (In_sort le).
      fold ordered. rewrite O. left. reflexivity. }
    unfold le, Engine.nulls_last, Engine.by_rank in Hf. rewrite Hq in Hf.
    destruct (Engine.profile first) as [vf|]; [|congruence].
    injection Hv as Hx; subst v. apply Z.leb_le in Hf.
    rewrite squared_distance_self in Hf.
    pose proof (squared_distance_nonneg vf q) as Nn.
    unfold Engine.euclidean_distance.
    replace (Engine.squared_distance vf q) with 0 by lia.
    apply sqrt_0.
Qed.

(** ** The charts, for every selection that can be charted *)

Lemma join_split (sep : ascii) (s : string) :
  join sep (PyStr.split sep s) = s.
Proof.
  induction s as [|c s IH]; [reflexivity|].
  cbn [PyStr.split]. pose proof (split_length sep s) as L.
  destruct (Ascii.eqb_spec c sep) as [->|N].
  - destruct (PyStr.split sep s) as [|f fs]; [simpl in L; lia|].
    change (join sep (EmptyString :: f :: fs))
      with (String sep (join sep (f :: fs))).
    now rewrite IH.
  - destruct (PyStr.split sep s) as [|f fs]; [simpl in L; lia|].
    destruct fs as [|g fs].
    + simpl in IH |- *. now rewrite IH.
    + change (join sep (String c f :: g :: fs))
        with (String c (join sep (f :: g :: fs))).
      now rewrite IH.
Qed.

Lemma valid_selection_pair (selection : string) :
  valid_selection selection = true ->
  exists a b,
    In a column_names /\ In b column_names
    /\ selection = a ++ "," ++ b
    /\ PyStr.split "," selection = [a; b].
Proof.
  unfold valid_selection. intro H. apply andb_prop in H. destruct H as [L F].
  apply Nat.eqb_eq in L.
  pose proof (join_split "," selection) as J.
  destruct (PyStr.split "," selection) as [|a [|b [|c l]]]; try discriminate L.
  cbn [forallb] in F.
  apply andb_prop in F. destruct F as [Fa F].
  apply andb_prop in F. destruct F as [Fb _].
  exists a, b. repeat split; try (apply mem_In; assumption).
  symmetry. exact J.
Qed.

Lemma chartable_cases (selection : string) :
  chartable selection = true ->
  In selection ["age,age"; "age,income"; "income,age"; "income,income"].
Proof.
  unfold chartable. intro H. apply andb_prop in H. destruct H as [V F].
  destruct (valid_selection_pair selection V) as [a [b [_ [_ [E S]]]]].
  rewrite S in F. cbn [forallb] in F.
  apply andb_prop in F. destruct F as [Fa F].
  apply andb_prop in F. destruct F as [Fb _].
  apply mem_In in Fa. apply mem_In in Fb. unfold table_columns in Fa, Fb.
  simpl in Fa, Fb. subst selection.
  destruct Fa as [<-|[<-|[]]], Fb as [<-|[<-|[]]]; simpl; auto.
Qed.

Lemma distance_names_cases (m : string) :
  PyStr.mem m distance_names = true -> In m distance_names.
Proof. apply mem_In. Qed.

Lemma customers_chart_normalised (columns distance : string) (w : world) :
  customers_chart columns distance w
  = customers_chart (PyStr.lower columns) (PyStr.upper distance) w.
Proof.
  unfold customers_chart.
  apply bind_cong; [symmetry; apply set_column_list_lower|]. intros _ w1.
  apply bind_cong; [symmetry; apply set_distance_metric_upper|].
  reflexivity.
Qed.

Lemma customers_chart_run (columns distance : string) (w : world)
      (h : handle) :
  connection w = Some (Some h) ->
  chartable (PyStr.lower columns) = true ->
  PyStr.mem (PyStr.upper distance) distance_names = true ->
  fst (customers_chart columns distance w) = Ok plt
  /\ pyplot (snd (customers_chart columns distance w))
     = (pyplot w
        ++ [overview (nth 0 (PyStr.split "," (PyStr.lower columns)) "")
                     (nth 1 (PyStr.split "," (PyStr.lower columns)) "")])%list
  /\ database (snd (customers_chart columns distance w))
     = Some (charted_table (nth 0 (PyStr.split "," (PyStr.lower columns)) "")
                           (nth 1 (PyStr.split "," (PyStr.lower columns)) ""))
  /\ connection (snd (customers_chart columns distance w)) = Some (Some h).
Proof.
  intros Hc Hs Hm.
  rewrite customers_chart_normalised.
  apply chartable_cases in Hs. apply distance_names_cases in Hm.
  destruct w as [cl cn dm c d s j o pl]. simpl in Hc. subst c.
  unfold distance_names in Hm. simpl in Hs, Hm.
  destruct Hs as [<-|[<-|[<-|[<-|[]]]]];
    destruct Hm as [<-|[<-|[<-|[<-|[<-|[<-|[<-|[]]]]]]]];
    match goal with
    | |- context [customers_chart ?a ?b ?x] =>
        remember (customers_chart a b x) as res eqn:E; vm_compute in E; subst res
    end;
    repeat split.
Qed.

Lemma overview_labels (c0 c1 : string) :
  List.length (texts (overview c0 c1)) = 10%nat.
Proof. unfold overview. cbn [texts]. rewrite length_map. reflexivity. Qed.

(** X15.  Over a live connection, for every selection of two of the
    columns [age] and [income] (in any case and order, repeated or not)
    and every metric name the setter accepts, [customers_chart] returns
    [plt] and has added one drawing to what the axes carried: its axes are
    the two selected columns, the legend is removed, and there is one label
    per seed row, at the row's two numbers, reading name[x,y], all in
    black, size 7, normal weight.  On axes nothing had been drawn on, these
    ten are all the labels of the chart.  The table the call leaves is the
    seed table with those two numbers as each row's profile; the metric
    plays no part. *)
Theorem customers_chart_drawing (columns distance : string) (w : world)
        (h : handle) :
  connection w = Some (Some h) ->
  chartable (PyStr.lower columns) = true ->
  PyStr.mem (PyStr.upper distance) distance_names = true ->
  let c0 := nth 0 (PyStr.split "," (PyStr.lower columns)) "" in
  let c1 := nth 1 (PyStr.split "," (PyStr.lower columns)) "" in
  let w' := snd (customers_chart columns distance w) in
  exists d,
    fst (customers_chart columns distance w) = Ok plt
    /\ pyplot w' = (pyplot w ++ [d])%list
    /\ database w' = Some (charted_table c0 c1)
    /\ plot_x d = c0 /\ plot_y d = c1 /\ plot_hue d = "Name"
    /\ legend d = false
    /\ map (fun l => (text_x l, text_y l, text_s l)) (texts d)
       = map (fun r => (CNum (column_number c0 r), CNum (column_number c1 r),
                        overview_label c0 c1 r))
             (Engine.rows seed_table)
    /\ Forall (fun l => color l = "black" /\ fontsize l = 7
                        /\ fontweight l = "normal") (texts d)
    /\ (pyplot w = [] -> chart_labels w' = texts d).
Proof.
  intros Hc Hs Hm c0 c1 w'.
  destruct (customers_chart_run columns distance w h Hc Hs Hm)
    as [R [P [D _]]].
  fold c0 c1 w' in P, D.
  exists (overview c0 c1).
  split; [exact R|]. split; [exact P|]. split; [exact D|].
  do 4 (split; [reflexivity|]).
  split; [|split].
  - unfold overview. cbn [texts]. rewrite map_map. reflexivity.
  - unfold overview. cbn [texts]. apply Forall_forall. intros l Hl.
    apply in_map_iff in Hl. destruct Hl as [r [<- _]]. repeat split.
  - intro E. unfold chart_labels. rewrite P, E. cbn [app flat_map].
    apply app_nil_r.
Qed.

Lemma similarity_chart_normalised (columns cust_name distance : string)
      (w : world) :
  similarity_chart columns cust_name distance w
  = similarity_chart (PyStr.lower columns) (PyStr.title cust_name)
                     (PyStr.upper distance) w.
Proof.
  unfold similarity_chart, similarity_chart_rows.
  apply bind_cong; [|reflexivity].
  apply bind_cong; [symmetry; apply set_column_list_lower|]. intros _ w1.
  apply bind_cong; [symmetry; apply set_distance_metric_upper|]. intros _ w2.
  apply bind_cong; [symmetry; apply set_customer_title|].
  reflexivity.
Qed.

(** X16.  Over a live connection, for every selection of two of the
    columns [age] and [income], every accepted subject and each of the
    metrics EUCLIDEAN, EUCLIDEAN_SQUARED, MANHATTAN and DOT,
    [similarity_chart] returns [plt] and has added one drawing to what the
    axes carried, without legend and with one label per seed row reading
    the row's name; of these ten labels exactly one is red, the subject's;
    exactly three are bold at size 10 and the others normal at size 7; and
    except under DOT the subject's label is one of the bold ones.  On axes
    nothing had been drawn on, these ten are all the labels of the chart. *)
Theorem similarity_chart_drawing (columns cust_name distance : string)
        (w : world) (h : handle) :
  connection w = Some (Some h) ->
  chartable (PyStr.lower columns) = true ->
  In (PyStr.upper distance) modelled_metrics ->
  PyStr.mem (PyStr.title cust_name) customer_names = true ->
  exists d,
    fst (similarity_chart columns cust_name distance w) = Ok plt
    /\ pyplot (snd (similarity_chart columns cust_name distance w))
       = (pyplot w ++ [d])%list
    /\ legend d = false
    /\ map text_s (texts d) = map Engine.name (Engine.rows seed_table)
    /\ map text_s (filter is_red (texts d)) = [PyStr.title cust_name]
    /\ List.length (filter is_bold (texts d)) = 3%nat
    /\ Forall (fun l => (color l = "red" \/ color l = "black")
                        /\ ((fontsize l = 10 /\ fontweight l = "bold")
                            \/ (fontsize l = 7 /\ fontweight l = "normal")))
              (texts d)
    /\ (PyStr.upper distance <> "DOT" ->
        Forall (fun l => is_red l = true -> is_bold l = true) (texts d))
    /\ (pyplot w = [] ->
        chart_labels (snd (similarity_chart columns cust_name distance w))
        = texts d).
Proof.
  intros Hc Hs Hm Hn.
  rewrite similarity_chart_normalised.
  apply chartable_cases in Hs. apply mem_In in Hn.
  destruct w as [cl cn dm c d s j o pl]. simpl in Hc. subst c.
  unfold modelled_metrics in Hm. unfold customer_names in Hn.
  simpl in Hs, Hm, Hn.
  destruct Hs as [<-|[<-|[<-|[<-|[]]]]];
    destruct Hm as [<-|[<-|[<-|[<-|[]]]]];
    destruct Hn as [<-|[<-|[<-|[<-|[<-|[<-|[<-|[<-|[<-|[]]]]]]]]]];
    unfold similarity_chart, similarity_chart_rows, get_connection, connect;
    destruct (oracledb_connect (getenv "DB_USER") (getenv "DB_PASS")
                               (getenv "DB_URL"));
    match goal with
    | |- context [fst ?x] =>
        remember x as res eqn:E; vm_compute in E; subst res
    end;
    cbn [fst snd pyplot];
    (eexists; split; [reflexivity|]);
    (split; [reflexivity|]);
    (split; [reflexivity|]); (split; [reflexivity|]);
    (split; [reflexivity|]); (split; [reflexivity|]);
    (split;
     [ repeat (apply Forall_cons;
               [split; [first [left; reflexivity | right; reflexivity]
                       |first [left; split; reflexivity
                              |right; split; reflexivity]]|]);
       apply Forall_nil
     | split;
       [ first
           [ intro N; exfalso; apply N; reflexivity
           | intros _;
             repeat (apply Forall_cons;
                     [intro R; first [reflexivity | discriminate R]|]);
             apply Forall_nil ]
       | intro P; cbn [pyplot] in P; subst pl; reflexivity ] ]).
Qed.

(** ** The charts, step by step *)

Lemma set_column_list_ok (columns : string) (w : world) :
  valid_selection (PyStr.lower columns) = true ->
  set_column_list columns w = (Ok tt, with_columns_list (PyStr.lower columns) w).
Proof. intro H. rewrite set_column_list_run, H. reflexivity. Qed.

Lemma set_distance_metric_ok (distance : string) (w : world) :
  PyStr.mem (PyStr.upper distance) distance_names = true ->
  set_distance_metric distance w
  = (Ok tt, with_distance_metric (PyStr.upper distance) w).
Proof. intro H. rewrite set_distance_metric_run, H. reflexivity. Qed.

Lemma set_customer_ok (name : string) (w : world) :
  PyStr.mem (PyStr.title name) customer_names = true ->
  set_customer name w = (Ok tt, with_customer_name (PyStr.title name) w).
Proof. intro H. rewrite set_customer_run, H. reflexivity. Qed.

Lemma create_schema_after_setters (s n m : string) (opened : bool) (w : world)
      (h : handle) :
  connection w = Some (Some h) ->
  exists p,
    create_schema (after_setters s n m opened w) = (Ok tt, p)
    /\ connection p = Some (Some h)
    /\ database p = Some seed_table
    /\ columns_list p = s /\ customer_name p = n /\ distance_metric p = m.
Proof.
  destruct w as [cl cn dm c d ss j o pl]. simpl. intro H. subst c.
  destruct opened;
    (eexists; split; [apply pair_eq; reflexivity | repeat split]).
Qed.

Lemma valid_selection_width (selection : string) :
  valid_selection selection = true -> width_ok selection.
Proof.
  intro V. unfold width_ok. rewrite (valid_selection_length _ V).
  vm_compute. discriminate.
Qed.

(** The lines of [similarity_chart] from [vectorize_data] to the query
    depend on the world only through the parameters the setters stored. *)
Lemma similarity_chart_rows_steps (columns cust_name distance : string)
      (w : world) (h : handle) :
  setters_accept columns cust_name distance = true ->
  connection w = Some (Some h) ->
  exists p,
    create_schema (after_setters (PyStr.lower columns) (PyStr.title cust_name)
                                 (PyStr.upper distance) accepted w)
    = (Ok tt, p)
    /\ connection p = Some (Some h)
    /\ database p = Some seed_table
    /\ similarity_chart_rows columns cust_name distance w
       = (vectorize_data (PyStr.lower columns) ;;
          get_similiar_customer_profiles (PyStr.lower columns)
            (PyStr.title cust_name) 3 (PyStr.upper distance)) p.
Proof.
  intros Hs Hc. unfold setters_accept in Hs.
  apply andb_prop in Hs. destruct Hs as [Hs Hn].
  apply andb_prop in Hs. destruct Hs as [Hv Hd].
  destruct (create_schema_after_setters
              (PyStr.lower columns) (PyStr.title cust_name)
              (PyStr.upper distance) accepted w h Hc)
    as [p [E [Cp [Dp [P1 [P2 P3]]]]]].
  exists p. repeat split; try assumption.
  unfold similarity_chart_rows.
  rewrite bind_run, (set_column_list_ok _ _ Hv).
  rewrite bind_run, (set_distance_metric_ok _ _ Hd).
  rewrite bind_run, (set_customer_ok _ _ Hn).
  rewrite bind_run, get_connection_world.
  assert (R : forall (c : option handle),
             (create_schema ;;
              columns_list_ <- read columns_list ;;
              vectorize_data columns_list_ ;;
              columns_list_0 <- read columns_list ;;
              customer_name_ <- read customer_name ;;
              distance_metric_ <- read distance_metric ;;
              get_similiar_customer_profiles columns_list_0 customer_name_ 3
                                             distance_metric_)
               (after_setters (PyStr.lower columns) (PyStr.title cust_name)
                              (PyStr.upper distance) accepted w)
             = (vectorize_data (PyStr.lower columns) ;;
                get_similiar_customer_profiles (PyStr.lower columns)
                  (PyStr.title cust_name) 3 (PyStr.upper distance)) p).
  { intros _. rewrite bind_run, E.
    rewrite bind_run. unfold read at 1. rewrite P1.
    rewrite (bind_run (vectorize_data (PyStr.lower columns))).
    rewrite (bind_run (vectorize_data (PyStr.lower columns))).
    destruct (vectorize_data_effect_any (PyStr.lower columns) p h seed_table
                (valid_selection_width _ Hv) Cp Dp) as [j1 E1].
    rewrite E1.
    destruct (embedded (PyStr.lower columns)
                       (resized (PyStr.lower columns) seed_table));
      [|reflexivity].
    rewrite !bind_run. unfold read.
    destruct p; cbn in P1, P2, P3 |- *. subst. reflexivity. }
  destruct accepted; exact (R None).
Qed.

Lemma create_schema_keeps_parameters (w : world) (h : handle) :
  connection w = Some (Some h) ->
  exists p,
    create_schema w = (Ok tt, p)
    /\ connection p = Some (Some h)
    /\ database p = Some seed_table
    /\ columns_list p = columns_list w
    /\ customer_name p = customer_name w
    /\ distance_metric p = distance_metric w.
Proof.
  destruct w as [cl cn dm c d ss j o pl]. simpl. intro H. subst c.
  eexists; split; [apply pair_eq; reflexivity | repeat split].
Qed.

Lemma chartable_valid (selection : string) :
  chartable selection = true -> valid_selection selection = true.
Proof. unfold chartable. intro H. apply andb_prop in H. tauto. Qed.

Lemma chartable_columns (selection : string) :
  chartable selection = true ->
  forallb (fun item => PyStr.mem item table_columns)
          (PyStr.split "," selection) = true.
Proof. unfold chartable. intro H. apply andb_prop in H. tauto. Qed.

Lemma unchartable_unknown (selection : string) :
  valid_selection selection = true ->
  chartable selection = false ->
  existsb (fun item => negb (PyStr.mem item all_columns))
          (PyStr.split "," selection) = true.
Proof.
  intros V C. unfold chartable in C. rewrite V in C. cbn [andb] in C.
  destruct (valid_selection_pair selection V) as [a [b [Ha [Hb [_ S]]]]].
  rewrite S in C |- *. unfold column_names in Ha, Hb. simpl in Ha, Hb.
  destruct Ha as [<-|[<-|[<-|[<-|[<-|[]]]]]];
    destruct Hb as [<-|[<-|[<-|[<-|[<-|[]]]]]];
    first [reflexivity | discriminate C].
Qed.

Lemma seed_ids_distinct : NoDup (map Engine.id (Engine.rows seed_table)).
Proof.
  vm_compute. repeat (constructor; [simpl; intuition discriminate|]).
  constructor.
Qed.

Lemma seed_numbers_small :
  Forall (fun r => Z.abs (Engine.age r) < 2 ^ 24
                   /\ Z.abs (Engine.income r) < 2 ^ 24)
         (Engine.rows seed_table).
Proof.
  repeat (apply Forall_cons; [split; reflexivity|]). apply Forall_nil.
Qed.

(** What [vectorize_data] leaves of the seed table for a selection that
    can be charted. *)
Lemma vectorize_data_charted (selection : string) (p : world) (h : handle) :
  chartable selection = true ->
  connection p = Some (Some h) ->
  database p = Some seed_table ->
  exists p',
    vectorize_data selection p = (Ok tt, p')
    /\ connection p' = Some (Some h)
    /\ database p'
       = Some (charted_table (nth 0 (PyStr.split "," selection) "")
                             (nth 1 (PyStr.split "," selection) "")).
Proof.
  intros C Hc Hd.
  pose proof (chartable_valid _ C) as V.
  destruct (vectorize_data_effect_any selection p h seed_table
              (valid_selection_width _ V) Hc Hd) as [j1 E1].
  rewrite (embedded_own_columns selection seed_table (chartable_columns _ C)
                                seed_ids_distinct) in E1.
  rewrite (own_columns_exact _ _ seed_numbers_small) in E1.
  eexists. split; [exact E1|]. split; [destruct p; exact Hc|].
  destruct (valid_selection_pair selection V) as [a [b [_ [_ [_ S]]]]].
  rewrite S. destruct p; reflexivity.
Qed.

Lemma subject_row_map (g : Engine.customer -> Engine.customer) (n : string)
      (i : Z) (pw : option nat) (rs : list Engine.customer) :
  (forall r, Engine.name (g r) = Engine.name r) ->
  subject_row n (Engine.mkTable i pw (map g rs))
  = option_map g (subject_row n (Engine.mkTable i pw rs)).
Proof.
  intro G. unfold subject_row. cbn [Engine.rows].
  induction rs as [|r rs IH]; [reflexivity|].
  cbn [map filter]. rewrite G.
  destruct (String.eqb (Engine.name r) n); [reflexivity | exact IH].
Qed.

Lemma subject_row_charted (c0 c1 n : string) :
  PyStr.mem n customer_names = true ->
  exists r0, subject_row n (charted_table c0 c1) = Some r0.
Proof.
  intro H. unfold charted_table.
  rewrite subject_row_map by reflexivity.
  apply mem_In in H. unfold customer_names in H. simpl in H.
  destruct H as [<-|[<-|[<-|[<-|[<-|[<-|[<-|[<-|[<-|[]]]]]]]]]];
    eexists; reflexivity.
Qed.

Lemma metric_ordering_upper (distance : string) :
  metric_ordering (PyStr.upper distance) = metric_ordering distance.
Proof. unfold metric_ordering. rewrite upper_idempotent. reflexivity. Qed.

(** On any table with a profile column and a row named [name], a metric
    name the engine does not know makes the second query of
    [get_similiar_customer_profiles] raise a database error. *)
Lemma get_similiar_rejected_metric (column_list name distance : string) (k : Z)
      (w : world) (h : handle) (t : Engine.table) (r0 : Engine.customer) :
  connection w = Some (Some h) ->
  database w = Some t ->
  Engine.profile_width t <> None ->
  subject_row name t = Some r0 ->
  metric_ordering distance = None ->
  get_similiar_customer_profiles column_list name k distance w
  = (Raise DatabaseError,
     with_journal
       (journal w
        ++ [(h, select_profile_sql);
            (h, "select name, profile from customer order by vector_distance(profile, :1, "
                  ++ distance ++ ") fetch first :2 rows only")])
       w).
Proof.
  intros Hc Hd Hw Hs Hm.
  destruct w as [cl cn dm c d s j o pl]. simpl in Hc, Hd. subst c d.
  unfold get_similiar_customer_profiles. cbv zeta.
  rewrite bind_run. cbn [connection_cursor connection].
  rewrite bind_run. unfold cursor_execute at 1. cbn [database journal].
  unfold Engine.select_profile_by_name.
  destruct (Engine.profile_width t) eqn:W; [|congruence].
  unfold subject_row in Hs.
  destruct (filter (fun r => String.eqb (Engine.name r) name) (Engine.rows t))
    as [|x rest]; [discriminate|].
  cbn [map hd_error]. unfold cursor_execute.
  cbn [with_journal with_database columns_list customer_name distance_metric
       connection database sessions journal stdout].
  unfold select_nearest. rewrite W, Hm. rewrite <- app_assoc. reflexivity.
Qed.

(** X17.  A metric name that [set_distance_metric] accepts but the engine
    does not know (as ["HAMMER"]) is found out late: over a live
    connection, with a selection that can be charted and an accepted
    subject, [similarity_chart] first rebuilds and vectorizes the table and
    then raises a database error at the similarity query. *)
Theorem similarity_chart_unknown_metric (columns cust_name distance : string)
        (w : world) (h : handle) :
  connection w = Some (Some h) ->
  chartable (PyStr.lower columns) = true ->
  PyStr.mem (PyStr.title cust_name) customer_names = true ->
  PyStr.mem (PyStr.upper distance) distance_names = true ->
  metric_ordering distance = None ->
  fst (set_distance_metric distance w) = Ok tt
  /\ fst (similarity_chart columns cust_name distance w) = Raise DatabaseError
  /\ database (snd (similarity_chart columns cust_name distance w))
     = Some (charted_table (nth 0 (PyStr.split "," (PyStr.lower columns)) "")
                           (nth 1 (PyStr.split "," (PyStr.lower columns)) "")).
Proof.
  intros Hc Hs Hn Hd Hm.
  split; [rewrite (set_distance_metric_ok _ _ Hd); reflexivity|].
  assert (A : setters_accept columns cust_name distance = true).
  { unfold setters_accept. rewrite (chartable_valid _ Hs), Hd, Hn. reflexivity. }
  destruct (similarity_chart_rows_steps columns cust_name distance w h A Hc)
    as [p [_ [Cp [Dp E]]]].
  destruct (vectorize_data_charted _ p h Hs Cp Dp) as [p' [V [Cp' Dp']]].
  destruct (subject_row_charted
              (nth 0 (PyStr.split "," (PyStr.lower columns)) "")
              (nth 1 (PyStr.split "," (PyStr.lower columns)) "")
              (PyStr.title cust_name) Hn) as [r0 S].
  rewrite <- metric_ordering_upper in Hm.
  pose proof (get_similiar_rejected_metric
                (PyStr.lower columns) (PyStr.title cust_name)
                (PyStr.upper distance) 3 p' h _ r0 Cp' Dp'
                ltac:(discriminate) S Hm) as G.
  assert (Ec : similarity_chart columns cust_name distance w
               = (Raise DatabaseError,
                  with_journal
                    (journal p'
                     ++ [(h, select_profile_sql);
                         (h, "select name, profile from customer order by vector_distance(profile, :1, "
                               ++ PyStr.upper distance
                               ++ ") fetch first :2 rows only")])
                    p')).
  { unfold similarity_chart. rewrite bind_run, E, bind_run, V, G. reflexivity. }
  rewrite Ec. split; [reflexivity | destruct p'; exact Dp'].
Qed.

Lemma customers_chart_unknown_column (columns distance : string)
      (w : world) (h : handle) :
  connection w = Some (Some h) ->
  valid_selection (PyStr.lower columns) = true ->
  chartable (PyStr.lower columns) = false ->
  PyStr.mem (PyStr.upper distance) distance_names = true ->
  exists p',
    customers_chart columns distance w = (Raise DatabaseError, p')
    /\ database p' = Some unfilled_table.
Proof.
  intros Hc Hv Hu Hd.
  pose proof (unchartable_unknown _ Hv Hu) as U.
  unfold customers_chart.
  rewrite bind_run, (set_column_list_ok _ _ Hv).
  rewrite bind_run, (set_distance_metric_ok _ _ Hd).
  destruct (create_schema_keeps_parameters
              (with_distance_metric (PyStr.upper distance)
                 (with_columns_list (PyStr.lower columns) w)) h)
    as [p [E [Cp [Dp [P1 _]]]]]; [destruct w; exact Hc|].
  assert (P : columns_list p = PyStr.lower columns)
    by (rewrite P1; destruct w; reflexivity).
  rewrite bind_run, E. rewrite bind_run. unfold read at 1. rewrite P.
  rewrite bind_run.
  destruct (vectorize_data_unknown_run (PyStr.lower columns) p h seed_table
              (valid_selection_width _ Hv) Cp Dp U) as [p' [V D]].
  rewrite V. exists p'. split; [reflexivity|].
  rewrite D. unfold resized. rewrite (valid_selection_length _ Hv). reflexivity.
Qed.

(** X18.  A selection the setter accepts but that names [is_single],
    [no_children] or [no_cars] cannot be charted: over a live connection
    both chart calls rebuild the table, add the profile column and then
    raise a database error at the select of [vectorize_data], leaving the
    seed rows with a null profile. *)
Theorem charts_unknown_column (columns cust_name distance : string)
        (w : world) (h : handle) :
  connection w = Some (Some h) ->
  valid_selection (PyStr.lower columns) = true ->
  chartable (PyStr.lower columns) = false ->
  PyStr.mem (PyStr.upper distance) distance_names = true ->
  (fst (customers_chart columns distance w) = Raise DatabaseError
   /\ database (snd (customers_chart columns distance w)) = Some unfilled_table)
  /\ (PyStr.mem (PyStr.title cust_name) customer_names = true ->
      fst (similarity_chart columns cust_name distance w) = Raise DatabaseError
      /\ database (snd (similarity_chart columns cust_name distance w))
         = Some unfilled_table).
Proof.
  intros Hc Hv Hu Hd.
  pose proof (unchartable_unknown _ Hv Hu) as U.
  assert (K : forall p, connection p = Some (Some h) ->
                        database p = Some seed_table ->
                        exists p', vectorize_data (PyStr.lower columns) p
                                   = (Raise DatabaseError, p')
                                   /\ database p' = Some unfilled_table).
  { intros p Cp Dp.
    destruct (vectorize_data_unknown_run (PyStr.lower columns) p h seed_table
                (valid_selection_width _ Hv) Cp Dp U) as [p' [V D]].
    exists p'. split; [exact V|].
    rewrite D. unfold resized. rewrite (valid_selection_length _ Hv).
    reflexivity. }
  split.
  - destruct (customers_chart_unknown_column columns distance w h Hc Hv Hu Hd)
      as [p' [Ec D]].
    rewrite Ec. split; [reflexivity | exact D].
  - intro Hn.
    assert (A : setters_accept columns cust_name distance = true).
    { unfold setters_accept. rewrite Hv, Hd, Hn. reflexivity. }
    destruct (similarity_chart_rows_steps columns cust_name distance w h A Hc)
      as [p [_ [Cp [Dp E]]]].
    destruct (K p Cp Dp) as [p' [V D]].
    assert (Ec : similarity_chart columns cust_name distance w
                 = (Raise DatabaseError, p')).
    { unfold similarity_chart. rewrite bind_run, E, bind_run, V. reflexivity. }
    rewrite Ec. split; [reflexivity | exact D].
Qed.

(** ** What only [init] does *)

Lemma quiet_keeps_connection {A} (m : M A) (w : world) :
  quiet (connection w) m -> keeps_connection m w.
Proof.
  intro Q. destruct (Q w eq_refl) as [[C [sent [J F]]] S].
  split; [exact C|]. split; [exact S|].
  exists sent. split; [exact J|]. intros h sql Hin.
  unfold sent_over in F. rewrite Forall_forall in F. exact (F (h, sql) Hin).
Qed.

Lemma quiet_customers_chart c columns distance :
  quiet c (customers_chart columns distance).
Proof. unfold customers_chart. cbv zeta. auto 30 with quiet. Qed.

(** X19.  In whatever world and with whatever arguments, the setters, the
    schema and embedding functions, the two queries and [customers_chart]
    never rebind the module variable [connection] and never open a
    session, and every statement they send goes over the session that
    variable names; [get_connection] does not rebind it either.  Only
    [init] writes it. *)
Theorem only_init_rebinds_connection
        (columns cust_name distance column_list name : string) (k : Z)
        (w : world) :
  keeps_connection (set_column_list columns) w
  /\ keeps_connection (set_distance_metric distance) w
  /\ keeps_connection (set_customer cust_name) w
  /\ keeps_connection create_schema w
  /\ keeps_connection insert_data w
  /\ keeps_connection (vectorize_data column_list) w
  /\ keeps_connection get_customer_profiles w
  /\ keeps_connection
       (get_similiar_customer_profiles column_list name k distance) w
  /\ keeps_connection (customers_chart columns distance) w
  /\ connection (snd (get_connection w)) = connection w.
Proof.
  split; [apply quiet_keeps_connection, quiet_set_column_list|].
  split; [apply quiet_keeps_connection, quiet_set_distance_metric|].
  split; [apply quiet_keeps_connection, quiet_set_customer|].
  split; [apply quiet_keeps_connection, quiet_create_schema|].
  split; [apply quiet_keeps_connection, quiet_insert_data|].
  split; [apply quiet_keeps_connection, quiet_vectorize_data|].
  split; [apply quiet_keeps_connection, quiet_get_customer_profiles|].
  split; [apply quiet_keeps_connection, quiet_get_similiar_customer_profiles|].
  split; [apply quiet_keeps_connection, quiet_customers_chart|].
  apply (calm_get_connection (connection w) w eq_refl).
Qed.

(** X20.  [create_schema] leaves a table without profile column, so until
    [vectorize_data] has run the two profile queries fail: right after
    [create_schema], over a live connection, [get_customer_profiles] and
    [get_similiar_customer_profiles] raise a database error, whatever
    their arguments. *)
Theorem profile_queries_need_vectorize_data
        (column_list name distance : string) (k : Z) (w : world) (h : handle) :
  connection w = Some (Some h) ->
  let p := snd (create_schema w) in
  fst (get_customer_profiles p) = Raise DatabaseError
  /\ fst (get_similiar_customer_profiles column_list name k distance p)
     = Raise DatabaseError
  /\ database (snd (get_customer_profiles p)) = Some seed_table
  /\ database (snd (get_similiar_customer_profiles column_list name k distance p))
     = Some seed_table.
Proof.
  destruct w as [cl cn dm c d s j o pl]. simpl. intro H. subst c.
  repeat split.
Qed.

(** X21.  [customers_chart] rebuilds the table from scratch but not the
    chart.  Over a live connection, for every selection of two of the
    columns [age] and [income] and every accepted metric, a second call
    with the same arguments returns normally and leaves the same table as
    the first, and it draws the same ten labels again on axes that still
    carry the first call's: after two calls the chart has twenty labels
    more than before the first. *)
Theorem customers_chart_accumulates (columns distance : string) (w : world)
        (h : handle) :
  connection w = Some (Some h) ->
  chartable (PyStr.lower columns) = true ->
  PyStr.mem (PyStr.upper distance) distance_names = true ->
  let c0 := nth 0 (PyStr.split "," (PyStr.lower columns)) "" in
  let c1 := nth 1 (PyStr.split "," (PyStr.lower columns)) "" in
  let w1 := snd (customers_chart columns distance w) in
  let w2 := snd (customers_chart columns distance w1) in
  fst (customers_chart columns distance w1) = Ok plt
  /\ database w2 = database w1
  /\ pyplot w1 = (pyplot w ++ [overview c0 c1])%list
  /\ pyplot w2 = (pyplot w ++ [overview c0 c1; overview c0 c1])%list
  /\ List.length (chart_labels w2) = (List.length (chart_labels w) + 20)%nat.
Proof.
  intros Hc Hs Hm c0 c1 w1 w2.
  destruct (customers_chart_run columns distance w h Hc Hs Hm)
    as [_ [P1 [D1 C1]]].
  fold c0 c1 w1 in P1, D1, C1.
  destruct (customers_chart_run columns distance w1 h C1 Hs Hm)
    as [R2 [P2 [D2 _]]].
  fold c0 c1 w2 in P2, D2.
  assert (P : pyplot w2 = (pyplot w ++ [overview c0 c1; overview c0 c1])%list).
  { rewrite P2, P1, <- app_assoc. reflexivity. }
  split; [exact R2|]. split; [congruence|]. split; [exact P1|].
  split; [exact P|].
  unfold chart_labels. rewrite P, flat_map_app, length_app.
  cbn [flat_map]. rewrite !length_app, !overview_labels. reflexivity.
Qed.

End Script.

(** ** Instances *)

Lemma get_connection_swallows_failure_witness :
  listener_down (dotenv "DB_USER") (dotenv "DB_PASS") (dotenv "DB_URL")
  = Some DatabaseError
  /\ get_connection dotenv listener_down fresh
     = (Ok None, with_stdout (stdout fresh ++ ["Connection failed!"]) fresh).
Proof.
  split; [reflexivity|].
  apply (get_connection_swallows_failure dotenv listener_down fresh DatabaseError).
  reflexivity.
Defined.

Lemma create_schema_absent_table_witness :
  connection connected = Some (Some 0%nat)
  /\ database connected = None
  /\ fst (create_schema connected) = Ok tt
  /\ database (snd (create_schema connected)) = Some seed_table.
Proof.
  split; [reflexivity|]. split; [reflexivity|].
  destruct (create_schema_absent_table connected 0%nat) as [_ [R [D _]]];
    [reflexivity | reflexivity |].
  split; assumption.
Defined.

Lemma customers_chart_embeddings_witness :
  connection connected = Some (Some 0%nat)
  /\ exists t,
      database (snd (customers_chart "age,income" "euclidean" connected)) = Some t
      /\ List.length (Engine.rows t) = 10%nat.
Proof.
  split; [reflexivity|].
  destruct (customers_chart_embeddings connected 0%nat) as [_ [t [D [L _]]]];
    [reflexivity|].
  exists t. split; assumption.
Defined.

Lemma similarity_chart_nearest_witness :
  connection connected = Some (Some 0%nat)
  /\ exists nearest,
      fst (similarity_chart_rows dotenv listener_up no_other_metric
             "age,income" "Jessica" "euclidean" connected) = Ok nearest
      /\ (List.length nearest <= 3)%nat.
Proof.
  split; [reflexivity|].
  destruct (similarity_chart_nearest dotenv listener_up no_other_metric
              connected 0%nat) as [nearest [_ [E [L _]]]]; [reflexivity|].
  exists nearest. split; assumption.
Defined.

(** After [init()], one call of [similarity_chart] against a listener that
    is up: session 0 is still the module's connection, session 1 has been
    opened, and all twelve statements went over session 0. *)
Lemma similarity_chart_second_session :
  let w' := snd (similarity_chart dotenv listener_up no_other_metric
                   "age,income" "Jessica" "euclidean" connected) in
  connection w' = Some (Some 0%nat)
  /\ sessions connected = 1%nat /\ sessions w' = 2%nat
  /\ map fst (journal w') = repeat 0%nat 12.
Proof. vm_compute. repeat split. Qed.

Lemma vectorize_data_idempotent_witness :
  valid_selection "age,income" = true
  /\ fst (vectorize_data "age,income" seeded) = Ok tt
  /\ exists w2,
      vectorize_data "age,income" (snd (vectorize_data "age,income" seeded))
      = (Ok tt, w2)
      /\ database w2 = database (snd (vectorize_data "age,income" seeded)).
Proof.
  split; [reflexivity|]. split; [reflexivity|].
  apply (vectorize_data_idempotent "age,income" seeded).
  - reflexivity.
  - vm_compute. reflexivity.
Defined.

Lemma vectorize_data_width_witness :
  valid_selection "age,income" = true
  /\ connection seeded = Some (Some 0%nat)
  /\ database seeded = Some seed_table
  /\ Engine.profile_width seed_table = None
  /\ exists t',
      database (snd (vectorize_data "age,income" seeded)) = Some t'
      /\ Engine.profile_width t' = Some 2%nat.
Proof.
  split; [reflexivity|]. split; [reflexivity|]. split; [reflexivity|].
  split; [reflexivity|].
  destruct (vectorize_data_width "age,income" seeded 0%nat seed_table)
    as [_ [[t' [D [W _]]] _]]; try reflexivity.
  exists t'. split; assumption.
Defined.

Lemma database_functions_without_connection_witness :
  connection_error (connection fresh) = Some NameError
  /\ create_schema fresh = (Raise NameError, fresh)
  /\ vectorize_data "age,income" fresh = (Raise NameError, fresh).
Proof.
  split; [reflexivity|].
  destruct (database_functions_without_connection no_other_metric
              fresh NameError "age,income" "Jessica" "EUCLIDEAN" 3 eq_refl)
    as [C [_ [V _]]].
  split; assumption.
Defined.

Lemma similarity_chart_without_init_witness :
  connection_error (connection fresh) = Some NameError
  /\ setters_accept "age,income" "Jessica" "euclidean" = true
  /\ fst (similarity_chart dotenv listener_up no_other_metric
            "age,income" "Jessica" "euclidean" fresh) = Raise NameError.
Proof.
  split; [reflexivity|]. split; [reflexivity|].
  destruct (similarity_chart_without_init dotenv listener_up no_other_metric
              "age,income" "Jessica" "euclidean" fresh NameError)
    as [R _]; [reflexivity | reflexivity | exact R].
Defined.

Lemma set_column_list_validates_witness :
  PyStr.isascii "Age,Income" = true
  /\ columns_list (snd (set_column_list "Age,Income" fresh)) = "age,income"
  /\ fst (set_column_list "Age,Income" fresh) = Ok tt.
Proof.
  split; [reflexivity|].
  destruct (set_column_list_validates "Age,Income" fresh eq_refl)
    as [_ [C [_ [_ R]]]].
  split; [exact C | exact R].
Defined.

Lemma set_customer_title_case_witness :
  PyStr.isascii "jESSICA" = true
  /\ set_customer "jESSICA" fresh = (Ok tt, with_customer_name "Jessica" fresh).
Proof.
  split; [reflexivity|].
  exact (set_customer_title_case "jESSICA" fresh eq_refl).
Defined.

Lemma set_distance_metric_upper_case_witness :
  PyStr.isascii "Cosine" = true
  /\ set_distance_metric "Cosine" fresh
     = (Ok tt, with_distance_metric "COSINE" fresh).
Proof.
  split; [reflexivity|].
  exact (set_distance_metric_upper_case "Cosine" fresh eq_refl).
Defined.

Lemma charts_validate_first_witness :
  PyStr.isascii "age" = true
  /\ PyStr.isascii "Jessica" = true
  /\ PyStr.isascii "euclidean" = true
  /\ setters_accept "age" "Jessica" "euclidean" = false
  /\ untouched connected
       (snd (similarity_chart dotenv listener_up no_other_metric
               "age" "Jessica" "euclidean" connected)).
Proof.
  split; [reflexivity|]. split; [reflexivity|]. split; [reflexivity|].
  split; [reflexivity|].
  destruct (charts_validate_first dotenv listener_up no_other_metric
              "age" "Jessica" "euclidean" connected eq_refl eq_refl eq_refl)
    as [S _].
  destruct (S eq_refl) as [_ U]. exact U.
Defined.

Lemma create_schema_resets_witness :
  connection seeded = Some (Some 0%nat)
  /\ database (snd (create_schema seeded)) = Some seed_table.
Proof.
  split; [reflexivity|].
  destruct (create_schema_resets seeded 0%nat eq_refl) as [_ [D _]]. exact D.
Defined.

Lemma insert_data_appends_witness :
  connection seeded = Some (Some 0%nat)
  /\ fst (insert_data seeded) = Ok tt.
Proof.
  split; [reflexivity|].
  pose proof (insert_data_appends seeded 0%nat eq_refl) as H.
  cbn [database seeded] in H. destruct H as [R _]. exact R.
Defined.

Lemma vectorize_data_keeps_columns_witness :
  width_ok "age,income"
  /\ connection seeded = Some (Some 0%nat)
  /\ exists t',
      database (snd (vectorize_data "age,income" seeded)) = Some t'
      /\ List.length (Engine.rows t') = List.length (Engine.rows seed_table).
Proof.
  assert (W : width_ok "age,income") by (vm_compute; discriminate).
  split; [exact W|]. split; [reflexivity|].
  destruct (vectorize_data_keeps_columns "age,income" seeded 0%nat seed_table
              W eq_refl eq_refl) as [t' [D [_ [_ L]]]].
  exists t'. split; assumption.
Defined.

Lemma vectorize_data_stores_own_columns_witness :
  width_ok "income"
  /\ NoDup (map Engine.id (Engine.rows seed_table))
  /\ numbers_38 seed_table
  /\ fst (vectorize_data "income" seeded) = Ok tt.
Proof.
  assert (W : width_ok "income") by (vm_compute; discriminate).
  assert (N : NoDup (map Engine.id (Engine.rows seed_table))).
  { vm_compute. repeat (constructor; [simpl; intuition discriminate|]).
    constructor. }
  assert (I : numbers_38 seed_table).
  { unfold numbers_38, number_38.
    repeat (apply Forall_cons; [split; reflexivity|]). apply Forall_nil. }
  split; [exact W|]. split; [exact N|]. split; [exact I|].
  destruct (vectorize_data_stores_own_columns "income" seeded 0%nat seed_table
              W eq_refl eq_refl eq_refl N I) as [R _].
  exact R.
Defined.

Lemma vectorize_data_unknown_column_witness :
  width_ok "age,is_single"
  /\ fst (vectorize_data "age,is_single" seeded) = Raise DatabaseError.
Proof.
  assert (W : width_ok "age,is_single") by (vm_compute; discriminate).
  split; [exact W|].
  destruct (vectorize_data_unknown_column "age,is_single" seeded 0%nat seed_table
              W eq_refl eq_refl eq_refl eq_refl) as [R _].
  exact R.
Defined.

Lemma get_similiar_unknown_name_witness :
  subject_row "jessica" seed_table = None
  /\ fst (get_similiar_customer_profiles no_other_metric "age,income" "jessica" 3
            "EUCLIDEAN" (snd (vectorize_data "age,income" seeded)))
     = Raise TypeError.
Proof.
  split; [reflexivity|].
  rewrite (get_similiar_unknown_name no_other_metric "age,income" "jessica"
             "EUCLIDEAN" 3 (snd (vectorize_data "age,income" seeded)) 0%nat
             (Engine.mkTable 11 (Some 2%nat)
                (map (fun r => Engine.set_profile
                                 [Engine.age r; Engine.income r] r)
                     (Engine.rows seed_table))));
    try reflexivity.
  vm_compute. discriminate.
Defined.

Lemma get_similiar_euclidean_witness :
  exists answer,
    fst (get_similiar_customer_profiles no_other_metric "age,income" "Olivia" 4
           "euclidean" (snd (vectorize_data "age,income" seeded)))
    = Ok answer
    /\ List.length answer = 4%nat.
Proof.
  destruct (get_similiar_euclidean no_other_metric "age,income" "Olivia"
              "euclidean" 4 (snd (vectorize_data "age,income" seeded)) 0%nat
              (Engine.mkTable 11 (Some 2%nat)
                 (map (fun r => Engine.set_profile
                                  [Engine.age r; Engine.income r] r)
                      (Engine.rows seed_table)))
              (Engine.mkCustomer 10 "Olivia" 44 8200 (Some [44; 8200]))
              [44; 8200])
    as [answer [vs [E [_ [L _]]]]]; try reflexivity.
  - vm_compute. discriminate.
  - vm_compute.
    repeat (apply Forall_cons; [discriminate|]). apply Forall_nil.
  - exists answer. split; [exact E | exact L].
Defined.

Lemma customers_chart_drawing_witness :
  connection connected = Some (Some 0%nat)
  /\ chartable (PyStr.lower "Income,AGE") = true
  /\ exists d,
      pyplot (snd (customers_chart "Income,AGE" "Cosine" connected)) = [d]
      /\ plot_x d = "income" /\ plot_y d = "age".
Proof.
  split; [reflexivity|]. split; [reflexivity|].
  destruct (customers_chart_drawing "Income,AGE" "Cosine" connected 0%nat)
    as [d [_ [P [_ [X [Y _]]]]]]; try reflexivity.
  exists d. repeat split; assumption.
Defined.

Lemma similarity_chart_drawing_witness :
  connection connected = Some (Some 0%nat)
  /\ exists d,
      pyplot (snd (similarity_chart dotenv listener_up no_other_metric
                     "income,age" "olivia" "manhattan" connected)) = [d]
      /\ List.length (filter is_bold (texts d)) = 3%nat.
Proof.
  split; [reflexivity|].
  destruct (similarity_chart_drawing dotenv listener_up no_other_metric
              "income,age" "olivia" "manhattan" connected 0%nat)
    as [d [_ [P [_ [_ [_ [B _]]]]]]]; try reflexivity.
  - simpl. auto.
  - exists d. split; assumption.
Defined.

Lemma similarity_chart_unknown_metric_witness :
  metric_ordering no_other_metric "hammer" = None
  /\ fst (similarity_chart dotenv listener_up no_other_metric
            "age,income" "Jessica" "hammer" connected) = Raise DatabaseError.
Proof.
  split; [reflexivity|].
  exact (proj1 (proj2 (similarity_chart_unknown_metric
                         dotenv listener_up no_other_metric
                         "age,income" "Jessica" "hammer" connected 0%nat
                         eq_refl eq_refl eq_refl eq_refl eq_refl))).
Defined.

Lemma charts_unknown_column_witness :
  valid_selection (PyStr.lower "age,no_cars") = true
  /\ chartable (PyStr.lower "age,no_cars") = false
  /\ fst (customers_chart "age,no_cars" "euclidean" connected)
     = Raise DatabaseError.
Proof.
  split; [reflexivity|]. split; [reflexivity|].
  exact (proj1 (proj1 (charts_unknown_column
                         dotenv listener_up no_other_metric
                         "age,no_cars" "Jessica" "euclidean" connected 0%nat
                         eq_refl eq_refl eq_refl eq_refl))).
Defined.

Lemma profile_queries_need_vectorize_data_witness :
  connection connected = Some (Some 0%nat)
  /\ fst (get_customer_profiles (snd (create_schema connected)))
     = Raise DatabaseError.
Proof.
  split; [reflexivity|].
  exact (proj1 (profile_queries_need_vectorize_data
                  no_other_metric "age,income" "Jessica" "EUCLIDEAN" 3
                  connected 0%nat eq_refl)).
Defined.

Lemma customers_chart_accumulates_witness :
  connection connected = Some (Some 0%nat)
  /\ chartable (PyStr.lower "age,income") = true
  /\ List.length
       (chart_labels
          (snd (customers_chart "age,income" "dot"
                  (snd (customers_chart "age,income" "dot" connected)))))
     = 20%nat.
Proof.
  split; [reflexivity|]. split; [reflexivity|].
  exact (proj2 (proj2 (proj2 (proj2
           (customers_chart_accumulates
              "age,income" "dot" connected 0%nat eq_refl eq_refl eq_refl))))).
Defined.
